(** * AI blog assistant: the chat-completion client of [app.py]

    A shallow embedding of [query_chat_api], its two prompt builders
    ([generate_titles], [generate_blog_content]) and the two places of
    the Streamlit page that display their result.

    Python values are modelled as follows.
    - [str] is a list of Unicode code points ([pystr]).
    - [int] is [Z]; the sampling temperature is a binary64 float.
    - The value returned by [response.json()] is a [json] tree.
    - The effects of the function (the HTTP POST, [st.warning],
      [time.sleep]) are recorded, in order, in a trace of [event]s; the
      remote service is an oracle [network] that answers a POST from the
      whole history, so that any behaviour of the transport is covered.
    - Exceptions are explicit: a computation ends in [Val] or in [Exc],
      and [try ... except] is [catch].  The exceptions of the model are
      those of [requests.post], of [response.json()] and of the
      interpreter on a value of the wrong shape; all derive from
      [Exception].  [st.warning], [time.sleep] and [str(e)] return
      normally. *)

From Stdlib Require Import ZArith List String Ascii DecimalString Floats Bool Lia.
From ExtLib Require Import Structures.Monad Structures.MonadExc.
Import ListNotations.
Import MonadNotation.

Set Warnings "-inexact-float,-register-all".
Local Open Scope Z_scope.
Local Open Scope monad_scope.

(** ** Python strings *)

Definition pystr := list N.

(** A source literal (all literals of the modelled code are ASCII). *)
Definition lit (s : string) : pystr :=
  map N_of_ascii (list_ascii_of_string s).

Fixpoint str_eqb (a b : pystr) : bool :=
  match a, b with
  | [], [] => true
  | x :: a', y :: b' => N.eqb x y && str_eqb a' b'
  | _, _ => false
  end.

(** [s.startswith(prefix)] *)
Fixpoint startswith (s prefix : pystr) {struct prefix} : bool :=
  match prefix, s with
  | [], _ => true
  | p :: prefix', c :: s' => N.eqb c p && startswith s' prefix'
  | _ :: _, [] => false
  end.

(** [needle in hay] on two strings. *)
Fixpoint str_contains (hay needle : pystr) : bool :=
  startswith hay needle ||
  match hay with
  | [] => false
  | _ :: hay' => str_contains hay' needle
  end.

(** The code points for which [str.isspace] holds; these are the ones
    [str.strip()] removes. *)
Definition isspace (c : N) : bool :=
  let c := Z.of_N c in
  ((9 <=? c) && (c <=? 13)) || ((28 <=? c) && (c <=? 32)) ||
  (c =? 133) || (c =? 160) || (c =? 5760) ||
  ((8192 <=? c) && (c <=? 8202)) || (c =? 8232) || (c =? 8233) ||
  (c =? 8239) || (c =? 8287) || (c =? 12288).

Fixpoint lstrip (s : pystr) : pystr :=
  match s with
  | c :: s' => if isspace c then lstrip s' else s
  | [] => []
  end.

Definition rstrip (s : pystr) : pystr := rev (lstrip (rev s)).

Definition strip (s : pystr) : pystr := rstrip (lstrip s).

(** [str(n)] for an [int]. *)
Definition str_of_int (n : Z) : pystr :=
  lit (NilZero.string_of_int (Z.to_int n)).

(** ** JSON values, as [response.json()] builds them *)

Inductive json : Type :=
| JNull
| JBool (b : bool)
| JInt (n : Z)
| JFloat (repr : pystr)
| JStr (s : pystr)
| JList (items : list json)
| JDict (items : list (pystr * json)).

(** A [dict] is kept as an association list; the first binding of a key
    is the one the dict holds. *)
Fixpoint dict_get (d : list (pystr * json)) (k : pystr) : option json :=
  match d with
  | [] => None
  | (k', v) :: d' => if str_eqb k' k then Some v else dict_get d' k
  end.

Definition dict_has (d : list (pystr * json)) (k : pystr) : bool :=
  match dict_get d k with Some _ => true | None => false end.

(** [x == k] for a string [k]. *)
Definition eq_str (k : pystr) (x : json) : bool :=
  match x with
  | JStr s => str_eqb s k
  | _ => false
  end.

(** ** Exceptions *)

(** Which [except] clause of [query_chat_api] an exception reaches.  The
    clauses are tried in order, so an exception that is both a
    [Timeout] and a [ConnectionError] ([ConnectTimeout]) is a
    [KTimeout].  Every exception of the model derives from [Exception]. *)
Inductive exn_kind : Type := KTimeout | KConnectionError | KOther.

Record exn : Type := mkExn { kind : exn_kind; exn_str : pystr }.

(** The faults the interpreter itself raises in the [try] block. *)
Inductive fault : Type :=
| NotAContainer (v : json)             (* TypeError: [k in v] *)
| NotSubscriptable (v : json)          (* TypeError: [v[k]] *)
| BadIndexType (v : json)              (* TypeError: [v["k"]] on list or str *)
| NoLen (v : json)                     (* TypeError: [len(v)] *)
| MissingKey (k : json)                (* KeyError *)
| IndexOutOfRange                      (* IndexError *)
| NoAttribute (v : json) (name : pystr). (* AttributeError *)

(** ** The HTTP exchange *)

Record message : Type := mkMessage { role : pystr; content : pystr }.

Record payload_t : Type := mkPayload {
  p_messages : list message;
  p_model : pystr;
  p_temperature : float;
  p_max_tokens : Z;
  p_stream : bool
}.

Record response_t : Type := mkResponse {
  status_code : Z;
  text : pystr;
  (** [inr v]: the body parses to [v]; [inl m]: [response.json()] raises
      a decode error whose [str] is [m]. *)
  body_json : pystr + json
}.

Inductive post_result : Type :=
| Responded (r : response_t)
| Raised (e : exn).

Inductive event : Type :=
| EvPost (url : pystr) (headers : list (pystr * pystr))
         (json_arg : payload_t) (timeout : Z)
| EvWarning (msg : pystr)
| EvSleep (seconds : Z).

Definition trace := list event.

(** What the embedding takes from outside the repository's source. *)
Record env : Type := mkEnv {
  (** [secret_api_keys.hugging_face_api_key], stored in
      [os.environ['HF_TOKEN']] at import. *)
  hugging_face_api_key : pystr;
  (** The remote service: the outcome of a POST, from the history up to
      and including that POST. *)
  network : trace -> post_result;
  (** [str(v)] for a JSON value that is not a string. *)
  py_repr : json -> pystr;
  (** [str(e)] for an exception raised by the interpreter. *)
  fault_text : fault -> pystr
}.

(** ** The monad of effects *)

Inductive result (A : Type) : Type :=
| Val (a : A)
| Exc (e : exn).
Arguments Val {A} a.
Arguments Exc {A} e.

Definition Py (A : Type) : Type := trace -> result A * trace.

Definition py_ret {A} (a : A) : Py A := fun tr => (Val a, tr).

Definition py_bind {A B} (c : Py A) (k : A -> Py B) : Py B :=
  fun tr =>
    match c tr with
    | (Val a, tr') => k a tr'
    | (Exc e, tr') => (Exc e, tr')
    end.

Definition py_raise {A} (e : exn) : Py A := fun tr => (Exc e, tr).

(** [try: c except Exception as e: h e] *)
Definition py_catch {A} (c : Py A) (h : exn -> Py A) : Py A :=
  fun tr =>
    match c tr with
    | (Val a, tr') => (Val a, tr')
    | (Exc e, tr') => h e tr'
    end.

#[global] Instance Monad_Py : Monad Py :=
  {| ret := @py_ret; bind := @py_bind |}.

#[global] Instance MonadExc_Py : MonadExc exn Py :=
  {| raise := @py_raise; catch := @py_catch |}.

Definition emit (e : event) : Py unit := fun tr => (Val tt, tr ++ [e]).

(** How a [for] body ends: by [return] (with the return statement it
    left through), or by reaching [continue]. *)
Inductive ret_site : Type :=
| RetContent        (* line 60 *)
| RetNoResponse     (* line 62 *)
| RetRateLimit      (* line 71 *)
| RetInvalidToken   (* line 74 *)
| RetUnavailable    (* line 82 *)
| RetApiStatus      (* line 86 *)
| RetTimeout        (* line 94 *)
| RetConnection     (* line 102 *)
| RetUnexpected.    (* line 110 *)

Inductive flow : Type :=
| Return (site : ret_site) (value : pystr)
| Continue.

(** [for x in xs: body x]; [Continue] at the end: the loop ran out. *)
Fixpoint for_in (xs : list Z) (body : Z -> Py flow) : Py flow :=
  match xs with
  | [] => ret Continue
  | x :: xs' =>
      f <- body x ;;
      match f with
      | Return site v => ret (Return site v)
      | Continue => for_in xs' body
      end
  end.

(** [range(n)] *)
Definition range (n : Z) : list Z := map Z.of_nat (seq 0 (Z.to_nat n)).

(** Number of keys of a dict. *)
Fixpoint dict_keys (d : list (pystr * json)) : list pystr :=
  match d with
  | [] => []
  | (k, _) :: d' => k :: filter (fun k' => negb (str_eqb k' k)) (dict_keys d')
  end.

Section Client.

Variable E : env.

(** *** The operations of the interpreter the function uses *)

Definition throw {A} (f : fault) : Py A :=
  raise (mkExn KOther (fault_text E f)).

(** [k in v] *)
Definition py_in (k : pystr) (v : json) : Py bool :=
  match v with
  | JDict d => ret (dict_has d k)
  | JList l =>
      ret (existsb (eq_str k) l)
  | JStr s => ret (str_contains s k)
  | _ => throw (NotAContainer v)
  end.

(** [v[k]] for a string key *)
Definition py_getitem (v : json) (k : pystr) : Py json :=
  match v with
  | JDict d =>
      match dict_get d k with
      | Some x => ret x
      | None => throw (MissingKey (JStr k))
      end
  | JList _ | JStr _ => throw (BadIndexType v)
  | _ => throw (NotSubscriptable v)
  end.

(** [v[0]]; the keys of a parsed JSON object are strings, so [0] is
    never one of them. *)
Definition py_getitem0 (v : json) : Py json :=
  match v with
  | JList (x :: _) => ret x
  | JStr (c :: _) => ret (JStr [c])
  | JList [] | JStr [] => throw IndexOutOfRange
  | JDict _ => throw (MissingKey (JInt 0))
  | _ => throw (NotSubscriptable v)
  end.

(** [len(v)] *)
Definition py_len (v : json) : Py Z :=
  match v with
  | JDict d => ret (Z.of_nat (List.length (dict_keys d)))
  | JList l => ret (Z.of_nat (List.length l))
  | JStr s => ret (Z.of_nat (List.length s))
  | _ => throw (NoLen v)
  end.

(** [v.strip()] *)
Definition py_strip (v : json) : Py pystr :=
  match v with
  | JStr s => ret (strip s)
  | _ => throw (NoAttribute v (lit "strip"))
  end.

(** [v.get(k, default)] *)
Definition py_get (v : json) (k : pystr) (default : json) : Py json :=
  match v with
  | JDict d =>
      ret (match dict_get d k with Some x => x | None => default end)
  | _ => throw (NoAttribute v (lit "get"))
  end.

(** [str(v)], as an f-string formats [v] *)
Definition py_str (v : json) : pystr :=
  match v with
  | JStr s => s
  | _ => py_repr E v
  end.

(** [response.json()] *)
Definition response_json (r : response_t) : Py json :=
  match body_json r with
  | inr v => ret v
  | inl m => raise (mkExn KOther m)
  end.

(** [requests.post(url, headers=..., json=..., timeout=...)] *)
Definition requests_post (url : pystr) (headers : list (pystr * pystr))
    (json_arg : payload_t) (timeout : Z) : Py response_t :=
  fun tr =>
    let tr' := tr ++ [EvPost url headers json_arg timeout] in
    match network E tr' with
    | Responded r => (Val r, tr')
    | Raised e => (Exc e, tr')
    end.

Definition st_warning (msg : pystr) : Py unit := emit (EvWarning msg).

Definition time_sleep (seconds : Z) : Py unit := emit (EvSleep seconds).

(** *** [query_chat_api] *)

Definition API_URL : pystr :=
  lit "https://router.huggingface.co/v1/chat/completions".

(** [os.environ['HF_TOKEN']] *)
Definition HF_TOKEN : pystr := hugging_face_api_key E.

(** Lines 36-39. *)
Definition build_headers : list (pystr * pystr) :=
  [ (lit "Authorization", lit "Bearer " ++ HF_TOKEN);
    (lit "Content-Type", lit "application/json") ].

(** Lines 41-47. *)
Definition build_payload (messages : list message) (model : pystr)
    (temperature : float) (max_tokens : Z) : payload_t :=
  {| p_messages := messages;
     p_model := model;
     p_temperature := temperature;
     p_max_tokens := max_tokens;
     p_stream := false |}.

(** [(Attempt {attempt + 1}/{max_retries})] *)
Definition attempt_note (attempt max_retries : Z) : pystr :=
  lit "(Attempt " ++ str_of_int (attempt + 1) ++ lit "/" ++
  str_of_int max_retries ++ lit ")".

(** Lines 88-110: the three [except] clauses. *)
Definition on_exception (max_retries attempt : Z) (e : exn) : Py flow :=
  match kind e with
  | KTimeout =>
      if attempt <? max_retries - 1 then
        st_warning (lit "Request timed out. Retrying... " ++
                    attempt_note attempt max_retries) ;;
        time_sleep 3 ;;
        ret Continue
      else
        ret (Return RetTimeout
               (lit "Error: Request timed out after multiple attempts."))
  | KConnectionError =>
      if attempt <? max_retries - 1 then
        st_warning (lit "Connection error. Retrying... " ++
                    attempt_note attempt max_retries) ;;
        time_sleep 3 ;;
        ret Continue
      else
        ret (Return RetConnection
               (lit "Error: Could not connect to Hugging Face API. Check your internet connection."))
  | KOther =>
      if attempt <? max_retries - 1 then
        st_warning (lit "Unexpected error: " ++ exn_str e ++
                    lit ". Retrying... " ++
                    attempt_note attempt max_retries) ;;
        time_sleep 2 ;;
        ret Continue
      else
        ret (Return RetUnexpected (lit "Error: " ++ exn_str e))
  end.

(** Lines 51-86: the [try] block. *)
Definition try_block (headers : list (pystr * pystr)) (payload : payload_t)
    (max_retries attempt : Z) : Py flow :=
  response <- requests_post API_URL headers payload 60 ;;
  if status_code response =? 200 then
    result <- response_json response ;;
    has_choices <- py_in (lit "choices") result ;;
    nonempty <- (if has_choices : bool then
                   choices <- py_getitem result (lit "choices") ;;
                   n <- py_len choices ;;
                   ret (n >? 0)
                 else ret false) ;;
    if nonempty : bool then
      choices <- py_getitem result (lit "choices") ;;
      choice <- py_getitem0 choices ;;
      msg <- py_getitem choice (lit "message") ;;
      message_content <- py_getitem msg (lit "content") ;;
      stripped <- py_strip message_content ;;
      ret (Return RetContent stripped)
    else
      ret (Return RetNoResponse (lit "Error: No response generated"))
  else if status_code response =? 429 then
    if attempt <? max_retries - 1 then
      let wait_time := (attempt + 1) * 3 in
      st_warning (lit "Rate limit hit. Waiting " ++ str_of_int wait_time ++
                  lit " seconds... " ++ attempt_note attempt max_retries) ;;
      time_sleep wait_time ;;
      ret Continue
    else
      ret (Return RetRateLimit
             (lit "Error: Rate limit exceeded. Please wait a minute and try again."))
  else if status_code response =? 401 then
    ret (Return RetInvalidToken
           (lit "Error: Invalid API token. Please check your Hugging Face API key."))
  else if status_code response =? 503 then
    if attempt <? max_retries - 1 then
      st_warning (lit "Model is loading... Retrying in 5 seconds " ++
                  attempt_note attempt max_retries) ;;
      time_sleep 5 ;;
      ret Continue
    else
      ret (Return RetUnavailable
             (lit "Error: Model is currently unavailable. Try a different model."))
  else
    body <- response_json response ;;
    error_msg <- py_get body (lit "error") (JStr (text response)) ;;
    ret (Return RetApiStatus
           (lit "Error: API returned status " ++
            str_of_int (status_code response) ++ lit " - " ++
            py_str error_msg)).

(** Lines 50-110: one iteration of the loop. *)
Definition attempt_body (headers : list (pystr * pystr))
    (payload : payload_t) (max_retries attempt : Z) : Py flow :=
  catch (try_block headers payload max_retries attempt)
        (on_exception max_retries attempt).

(** Lines 36-112.  Next to the returned string, the result tells the
    return statement it comes from: [Some site] for one inside the
    loop, [None] for the last line of the function. *)
Definition query_chat_api_at (messages : list message) (model : pystr)
    (max_retries : Z) (temperature : float) (max_tokens : Z)
    : Py (option ret_site * pystr) :=
  let headers := build_headers in
  let payload := build_payload messages model temperature max_tokens in
  f <- for_in (range max_retries)
              (attempt_body headers payload max_retries) ;;
  match f with
  | Return site v => ret (Some site, v)
  | Continue => ret (None, lit "Error: All retry attempts failed.")
  end.

(** The function as its callers see it. *)
Definition query_chat_api (messages : list message) (model : pystr)
    (max_retries : Z) (temperature : float) (max_tokens : Z) : Py pystr :=
  r <- query_chat_api_at messages model max_retries temperature max_tokens ;;
  ret (snd r).

(** The POST every attempt of a call sends (line 51). *)
Definition post_event (messages : list message) (model : pystr)
    (temperature : float) (max_tokens : Z) : event :=
  EvPost API_URL build_headers
    (build_payload messages model temperature max_tokens) 60.

(** What a rate-limited attempt with a later attempt left adds to the
    trace (lines 51 and 66-68). *)
Definition rate_limited_round (messages : list message) (model : pystr)
    (max_retries : Z) (temperature : float) (max_tokens : Z) (attempt : Z)
    : trace :=
  [ post_event messages model temperature max_tokens;
    EvWarning (lit "Rate limit hit. Waiting " ++
               str_of_int ((attempt + 1) * 3) ++ lit " seconds... " ++
               attempt_note attempt max_retries);
    EvSleep ((attempt + 1) * 3) ].

(** Default arguments of [query_chat_api]. *)
Definition default_max_retries : Z := 3.

(** *** The two call sites *)

Definition titles_messages (topic : pystr) : list message :=
  [ {| role := lit "system";
       content := lit "You are a creative blog title generator. Generate exactly 10 numbered blog titles, one per line." |};
    {| role := lit "user";
       content := lit "Generate 10 creative, attention-grabbing blog post titles about '" ++
                  topic ++
                  lit "'. Target audience: beginners and tech enthusiasts. Format: numbered list 1-10, no explanations." |} ].

Definition generate_titles (topic model : pystr) : Py pystr :=
  query_chat_api (titles_messages topic) model default_max_retries
                 0.8%float 400.

Definition blog_messages (title keywords : pystr) (blog_length : Z)
    : list message :=
  [ {| role := lit "system";
       content := lit "You are a professional blog writer. Write informative, engaging, and well-structured blog posts of approximately " ++
                  str_of_int blog_length ++ lit " words." |};
    {| role := lit "user";
       content := lit "Write a comprehensive blog post with the following specifications:

Title: " ++ title ++ lit "
Keywords to include: " ++ keywords ++ lit "
Target length: " ++ str_of_int blog_length ++ lit " words
Target audience: beginners

Structure your blog post with:
1. An engaging introduction
2. Well-organized main content with clear points
3. A strong conclusion

Make it informative, easy to understand, and engaging." |} ].

Definition generate_blog_content (title keywords : pystr) (blog_length : Z)
    (model : pystr) : Py pystr :=
  query_chat_api (blog_messages title keywords blog_length) model
                 default_max_retries 0.7%float
                 (Z.min (blog_length * 2) 2000).

End Client.

(** ** The page: where the results are displayed *)

Inductive ui_call : Type :=
| StError (body : pystr)
| StSuccess (body : pystr)
| StTextArea (label value : pystr) (height : Z) (key : pystr)
| StMarkdown (body : pystr)
| StCaption (body : pystr)
| StWrite (body : pystr).

(** Lines 232-241, on [st.session_state['title_results']]. *)
Definition display_title_results (title_results : pystr) : list ui_call :=
  if startswith title_results (lit "Error") then
    [StError title_results]
  else
    [ StSuccess (9989%N :: lit " Titles generated successfully!");
      StTextArea (lit "Generated Titles:") title_results 300
                 (lit "titles_display") ].

(** [st.session_state['blog_results']], built at lines 315-319. *)
Record blog_results_t : Type := mkBlogResults {
  br_title : pystr;
  br_content : pystr;
  br_keywords : pystr
}.

(** Lines 329-336. *)
Definition display_blog_results (blog_results : blog_results_t)
    : list ui_call :=
  if startswith (br_content blog_results) (lit "Error") then
    [StError (br_content blog_results)]
  else
    [ StMarkdown (lit "### " ++ br_title blog_results);
      StCaption (lit "Keywords: " ++ br_keywords blog_results);
      StMarkdown (lit "---");
      StWrite (br_content blog_results) ].

(** ** Reading a trace *)

Definition is_post (e : event) : bool :=
  match e with EvPost _ _ _ _ => true | _ => false end.

(** The POSTs of a trace, the seconds slept and the warnings shown, each
    in order. *)
Definition posts (tr : trace) : list event := filter is_post tr.

Fixpoint sleeps (tr : trace) : list Z :=
  match tr with
  | [] => []
  | EvSleep s :: tr' => s :: sleeps tr'
  | _ :: tr' => sleeps tr'
  end.

Fixpoint warnings (tr : trace) : list pystr :=
  match tr with
  | [] => []
  | EvWarning m :: tr' => m :: warnings tr'
  | _ :: tr' => warnings tr'
  end.

(** How one iteration may end, given the events [extra] it adds after
    its POST: a [return] adds none and yields the completion or a string
    that starts with [Error]; a [continue] is taken with a later attempt
    left, after one warning and one sleep. *)
Definition ends_well (max_retries attempt : Z) (f : flow) (extra : trace)
    : Prop :=
  match f with
  | Return site v =>
      extra = [] /\ (site = RetContent \/ startswith v (lit "Error") = true)
  | Continue =>
      attempt < max_retries - 1 /\
      exists m s, extra = [EvWarning m; EvSleep s]
  end.

(** The [json] arguments of the POSTs of a trace. *)
Fixpoint posted (tr : trace) : list payload_t :=
  match tr with
  | [] => []
  | EvPost _ _ p _ :: tr' => p :: posted tr'
  | _ :: tr' => posted tr'
  end.

(** ** Reading a response body *)

(** [choices[0].message.content] of a parsed body, when the body has
    that member and it is a string. *)
Definition first_choice_content (body : json) : option pystr :=
  match body with
  | JDict d =>
      match dict_get d (lit "choices") with
      | Some (JList (JDict choice :: _)) =>
          match dict_get choice (lit "message") with
          | Some (JDict msg) =>
              match dict_get msg (lit "content") with
              | Some (JStr c) => Some c
              | _ => None
              end
          | _ => None
          end
      | _ => None
      end
  | _ => None
  end.

(** The body is an object whose [choices] member is missing or is the
    empty array. *)
Definition no_choices (body : json) : bool :=
  match body with
  | JDict d =>
      match dict_get d (lit "choices") with
      | None | Some (JList []) => true
      | _ => false
      end
  | _ => false
  end.

(** The conditions after which the function tries again while attempts
    remain, each with the string returned when none remains. *)
Inductive retryable : post_result -> pystr -> Prop :=
| retry_rate_limit r :
    status_code r = 429 ->
    retryable (Responded r)
      (lit "Error: Rate limit exceeded. Please wait a minute and try again.")
| retry_unavailable r :
    status_code r = 503 ->
    retryable (Responded r)
      (lit "Error: Model is currently unavailable. Try a different model.")
| retry_timeout e :
    kind e = KTimeout ->
    retryable (Raised e)
      (lit "Error: Request timed out after multiple attempts.")
| retry_connection e :
    kind e = KConnectionError ->
    retryable (Raised e)
      (lit "Error: Could not connect to Hugging Face API. Check your internet connection.")
| retry_unexpected e :
    kind e = KOther ->
    retryable (Raised e) (lit "Error: " ++ exn_str e).

(** ** Sample environments *)

(** A service that gives the same answer to every POST. *)
Definition always (a : post_result) : trace -> post_result := fun _ => a.

(** A service that answers the [n]-th POST of the history with the
    [n]-th element of [answers], and with [last] afterwards. *)
Definition scripted (answers : list post_result) (last : post_result)
    : trace -> post_result :=
  fun tr => nth (Nat.pred (List.length (posts tr))) answers last.

Definition sample_env (net : trace -> post_result) : env :=
  {| hugging_face_api_key := lit "hf_sample";
     network := net;
     py_repr := fun _ => lit "<json>";
     fault_text := fun _ => lit "<fault>" |}.

Definition status_only (code : Z) : post_result :=
  Responded {| status_code := code; text := []; body_json := inr (JDict []) |}.

(** A completion whose content is [c]. *)
Definition completion (c : pystr) : post_result :=
  Responded
    {| status_code := 200;
       text := [];
       body_json :=
         inr (JDict [(lit "choices",
                      JList [JDict [(lit "message",
                                     JDict [(lit "role", JStr (lit "assistant"));
                                            (lit "content", JStr c)])]])]) |}.

(** A gateway error page: status 500 and a body that is not JSON. *)
Definition error_page : post_result :=
  Responded
    {| status_code := 500;
       text := lit "Internal Server Error";
       body_json := inl (lit "Expecting value: line 1 column 1 (char 0)") |}.

Definition sample_messages : list message :=
  [ {| role := lit "user"; content := lit "Hello" |} ].

(** ** More string operations of the page *)

(** [s.split()]: the maximal runs of characters that are not
    whitespace.  [word] holds, reversed, the run being read. *)
Fixpoint split_from (s word : pystr) : list pystr :=
  match s with
  | [] => match word with [] => [] | _ => [rev word] end
  | c :: s' =>
      if isspace c then
        match word with
        | [] => split_from s' []
        | _ => rev word :: split_from s' []
        end
      else split_from s' (c :: word)
  end.

Definition split_words (s : pystr) : list pystr := split_from s [].

(** [s.split(sep)] for a separator of one character. *)
Fixpoint split_on (sep : N) (s : pystr) : list pystr :=
  match s with
  | [] => [[]]
  | c :: s' =>
      if N.eqb c sep then [] :: split_on sep s'
      else match split_on sep s' with
           | w :: ws => (c :: w) :: ws
           | [] => [[c]]
           end
  end.

(** [s.replace(old, new)] for [old] and [new] of one character. *)
Definition replace_char (old new : N) (s : pystr) : pystr :=
  map (fun c => if N.eqb c old then new else c) s.

(** [sep.join(parts)] *)
Fixpoint str_join (sep : pystr) (parts : list pystr) : pystr :=
  match parts with
  | [] => []
  | [x] => x
  | x :: rest => x ++ sep ++ str_join sep rest
  end.

(** [x in xs] for a list of strings. *)
Definition str_in (x : pystr) (xs : list pystr) : bool :=
  existsb (str_eqb x) xs.

(** Line 174: [selected_model.split('/')[-1]]. *)
Definition model_short_name (selected_model : pystr) : pystr :=
  last (split_on 47 selected_model) [].

(** Lines 345 and 355: the names of the two downloads. *)
Definition download_stem (title : pystr) : pystr :=
  firstn 50 (replace_char 32 95 title).

Definition txt_file_name (blog_results : blog_results_t) : pystr :=
  download_stem (br_title blog_results) ++ lit ".txt".

Definition md_file_name (blog_results : blog_results_t) : pystr :=
  download_stem (br_title blog_results) ++ lit ".md".

(** Line 341. *)
Definition download_content (blog_results : blog_results_t) : pystr :=
  lit "# " ++ br_title blog_results ++ [10; 10]%N ++
  lit "Keywords: " ++ br_keywords blog_results ++ [10; 10]%N ++
  br_content blog_results.

(** Line 351. *)
Definition markdown_content (blog_results : blog_results_t) : pystr :=
  lit "# " ++ br_title blog_results ++ [10; 10]%N ++
  lit "**Keywords:** " ++ br_keywords blog_results ++ [10; 10]%N ++
  lit "---" ++ [10; 10]%N ++ br_content blog_results.

(** Line 361. *)
Definition word_count (blog_results : blog_results_t) : Z :=
  Z.of_nat (List.length (split_words (br_content blog_results))).

(** ** One run of the script *)

(** The three keys of [st.session_state] the script writes. *)
Record session_state : Type := mkSession {
  ss_title_results : option pystr;
  ss_blog_results : option blog_results_t;
  ss_keywords : option (list pystr)
}.

(** What the widgets return in one run of the script. *)
Record widgets : Type := mkWidgets {
  w_selected_model : pystr;       (* line 167 *)
  w_clear_cache_btn : bool;       (* line 191 *)
  w_topic_name : pystr;           (* line 206 *)
  w_generate_titles_btn : bool;   (* line 214 *)
  w_clear_titles_btn : bool;      (* line 216 *)
  w_title_of_the_blog : pystr;    (* line 247 *)
  w_num_of_words : Z;             (* line 253 *)
  w_keyword_input : pystr;        (* line 269 *)
  w_add_keyword_btn : bool;       (* line 276 *)
  w_clear_keywords_btn : bool;    (* line 289 *)
  w_generate_blog_btn : bool;     (* line 297 *)
  w_clear_blog_btn : bool         (* line 299 *)
}.

(** A part of the script: the new session state, and whether the part
    ended the run by [st.rerun()]. *)
Definition block : Type := session_state -> Py (bool * session_state).

Definition then_block (b1 b2 : block) : block :=
  fun st =>
    r <- b1 st ;;
    if fst r : bool then ret r else b2 (snd r).

Definition rerun (st : session_state) : Py (bool * session_state) :=
  ret (true, st).

Definition carry_on (st : session_state) : Py (bool * session_state) :=
  ret (false, st).

(** Truth value of a string or of a list. *)
Definition truthy {A} (l : list A) : bool :=
  match l with [] => false | _ => true end.

Section Page.

Variable E : env.
Variable w : widgets.

(** Lines 191-197. *)
Definition clear_cache_block : block :=
  fun st =>
    if w_clear_cache_btn w then
      rerun {| ss_title_results := None;
               ss_blog_results := None;
               ss_keywords := ss_keywords st |}
    else carry_on st.

(** Lines 216-219. *)
Definition clear_titles_block : block :=
  fun st =>
    if w_clear_titles_btn w then
      match ss_title_results st with
      | Some _ =>
          rerun {| ss_title_results := None;
                   ss_blog_results := ss_blog_results st;
                   ss_keywords := ss_keywords st |}
      | None => carry_on st
      end
    else carry_on st.

(** Lines 221-228. *)
Definition generate_titles_block : block :=
  fun st =>
    if w_generate_titles_btn w then
      if truthy (strip (w_topic_name w)) then
        titles <- generate_titles E (strip (w_topic_name w))
                    (w_selected_model w) ;;
        rerun {| ss_title_results := Some titles;
                 ss_blog_results := ss_blog_results st;
                 ss_keywords := ss_keywords st |}
      else
        st_warning ([9888; 65039]%N ++ lit " Please enter a topic first.") ;;
        carry_on st
    else carry_on st.

(** Lines 264-265. *)
Definition init_keywords_block : block :=
  fun st =>
    match ss_keywords st with
    | Some _ => carry_on st
    | None =>
        carry_on {| ss_title_results := ss_title_results st;
                    ss_blog_results := ss_blog_results st;
                    ss_keywords := Some [] |}
    end.

(** [st.session_state['keywords']] *)
Definition session_keywords (st : session_state) : Py (list pystr) :=
  match ss_keywords st with
  | Some kws => ret kws
  | None => throw E (MissingKey (JStr (lit "keywords")))
  end.

(** Lines 276-279. *)
Definition add_keyword_block : block :=
  fun st =>
    if w_add_keyword_btn w then
      if truthy (strip (w_keyword_input w)) then
        kws <- session_keywords st ;;
        if negb (str_in (strip (w_keyword_input w)) kws) then
          rerun {| ss_title_results := ss_title_results st;
                   ss_blog_results := ss_blog_results st;
                   ss_keywords := Some (kws ++ [strip (w_keyword_input w)]) |}
        else carry_on st
      else carry_on st
    else carry_on st.

(** Lines 282-291. *)
Definition clear_keywords_block : block :=
  fun st =>
    kws <- session_keywords st ;;
    if truthy kws then
      if w_clear_keywords_btn w then
        rerun {| ss_title_results := ss_title_results st;
                 ss_blog_results := ss_blog_results st;
                 ss_keywords := Some [] |}
      else carry_on st
    else carry_on st.

(** Lines 299-302. *)
Definition clear_blog_block : block :=
  fun st =>
    if w_clear_blog_btn w then
      match ss_blog_results st with
      | Some _ =>
          rerun {| ss_title_results := ss_title_results st;
                   ss_blog_results := None;
                   ss_keywords := ss_keywords st |}
      | None => carry_on st
      end
    else carry_on st.

(** Line 306. *)
Definition format_keywords (kws : list pystr) : pystr :=
  if truthy kws then str_join (lit ", ") kws else lit "general topics".

(** Lines 304-322. *)
Definition generate_blog_block : block :=
  fun st =>
    if w_generate_blog_btn w then
      if truthy (strip (w_title_of_the_blog w)) then
        kws <- session_keywords st ;;
        let formatted_keywords := format_keywords kws in
        blog_content <- generate_blog_content E
                          (strip (w_title_of_the_blog w)) formatted_keywords
                          (w_num_of_words w) (w_selected_model w) ;;
        rerun {| ss_title_results := ss_title_results st;
                 ss_blog_results :=
                   Some {| br_title := strip (w_title_of_the_blog w);
                           br_content := blog_content;
                           br_keywords := formatted_keywords |};
                 ss_keywords := ss_keywords st |}
      else
        st_warning ([9888; 65039]%N ++
                    lit " Please enter a blog title first.") ;;
        carry_on st
    else carry_on st.

(** The script from top to bottom, as far as it touches the session
    state, the service and [st.warning]; what it draws from the state
    is [display_title_results] and [display_blog_results]. *)
Definition script_run : block :=
  then_block clear_cache_block
    (then_block clear_titles_block
       (then_block generate_titles_block
          (then_block init_keywords_block
             (then_block add_keyword_block
                (then_block clear_keywords_block
                   (then_block clear_blog_block generate_blog_block)))))).

End Page.

(** The session state of a new session. *)
Definition new_session : session_state :=
  {| ss_title_results := None; ss_blog_results := None; ss_keywords := None |}.

(** Successive runs of the script, one per element of [ws]. *)
Fixpoint script_runs (E : env) (ws : list widgets) (st : session_state)
    : Py session_state :=
  match ws with
  | [] => ret st
  | w :: ws' =>
      r <- script_run E w st ;;
      script_runs E ws' (snd r)
  end.

(** What every reachable session state satisfies: the keywords are
    distinct, not empty and without surrounding whitespace; a stored
    blog has a title that is not empty and has no surrounding
    whitespace, and a keyword text that is not empty. *)
Definition keywords_ok (kws : list pystr) : Prop :=
  NoDup kws /\ Forall (fun k => k <> [] /\ strip k = k) kws.

Definition session_ok (st : session_state) : Prop :=
  (forall kws, ss_keywords st = Some kws -> keywords_ok kws) /\
  (forall b, ss_blog_results st = Some b ->
     br_title b <> [] /\ strip (br_title b) = br_title b /\
     br_keywords b <> []).

(** A string of whitespace only. *)
Definition all_space (s : pystr) : Prop :=
  Forall (fun c => isspace c = true) s.

(** The string [v] returned with trace [tr'] is the stripped content of
    an answer with status 200 to the POST that ends [tr']. *)
Definition from_ok_answer (E : env) (post : event) (v : pystr) (tr' : trace)
    : Prop :=
  exists tr r parsed c,
    tr' = tr ++ [post] /\
    network E tr' = Responded r /\
    status_code r = 200 /\
    body_json r = inr parsed /\
    first_choice_content parsed = Some c /\
    v = strip c.

(** The answers that end a call at whatever attempt they come, each
    with the string the call returns. *)
Inductive decisive (E : env) : post_result -> pystr -> Prop :=
| decisive_content r parsed c :
    status_code r = 200 -> body_json r = inr parsed ->
    first_choice_content parsed = Some c ->
    decisive E (Responded r) (strip c)
| decisive_no_choices r parsed :
    status_code r = 200 -> body_json r = inr parsed ->
    no_choices parsed = true ->
    decisive E (Responded r) (lit "Error: No response generated")
| decisive_unauthorized r :
    status_code r = 401 ->
    decisive E (Responded r)
      (lit "Error: Invalid API token. Please check your Hugging Face API key.")
| decisive_other_status r d :
    ~ In (status_code r) [200; 429; 401; 503] ->
    body_json r = inr (JDict d) ->
    decisive E (Responded r)
      (lit "Error: API returned status " ++
       str_of_int (status_code r) ++ lit " - " ++
       py_str E (match dict_get d (lit "error") with
                 | Some payload => payload
                 | None => JStr (text r)
                 end)).

(** What a part of the script guarantees when started in a state that
    satisfies [P]: it raises nothing, leaves a state that satisfies
    [session_ok], sends at most three POSTs, and, when it does not end
    the run, has sent none and leaves a state that satisfies [Q]. *)
Definition block_spec (P Q : session_state -> Prop) (b : block) : Prop :=
  forall st tr, P st ->
    exists flag st' added,
      b st tr = (Val (flag, st'), tr ++ added) /\
      session_ok st' /\
      (flag = false -> Q st' /\ posts added = []) /\
      (List.length (posts added) <= 3)%nat.

(** The state after line 265: [session_ok], and the keywords are there. *)
Definition session_ready (st : session_state) : Prop :=
  session_ok st /\ ss_keywords st <> None.

(** Lines 14-20. *)
Definition MODEL_OPTIONS : list pystr :=
  [ lit "Kwaipilot/KAT-Dev:novita";
    lit "mistralai/Mixtral-8x7B-Instruct-v0.1";
    lit "meta-llama/Llama-2-70b-chat-hf";
    lit "NousResearch/Nous-Hermes-2-Mixtral-8x7B-DPO";
    lit "openchat/openchat-3.5-1210" ].

(** The widgets of a run in which the user does nothing. *)
Definition idle_widgets : widgets :=
  {| w_selected_model := lit "Kwaipilot/KAT-Dev:novita";
     w_clear_cache_btn := false;
     w_topic_name := [];
     w_generate_titles_btn := false;
     w_clear_titles_btn := false;
     w_title_of_the_blog := [];
     w_num_of_words := 400;
     w_keyword_input := [];
     w_add_keyword_btn := false;
     w_clear_keywords_btn := false;
     w_generate_blog_btn := false;
     w_clear_blog_btn := false |}.

(** The user presses Generate Titles with only spaces as topic. *)
Definition blank_topic_widgets : widgets :=
  {| w_selected_model := lit "Kwaipilot/KAT-Dev:novita";
     w_clear_cache_btn := false;
     w_topic_name := lit "   ";
     w_generate_titles_btn := true;
     w_clear_titles_btn := false;
     w_title_of_the_blog := [];
     w_num_of_words := 400;
     w_keyword_input := [];
     w_add_keyword_btn := false;
     w_clear_keywords_btn := false;
     w_generate_blog_btn := false;
     w_clear_blog_btn := false |}.




(** ** Reading a trace, continued *)

(** Seconds slept in all. *)
Definition total_sleep (tr : trace) : Z := fold_right Z.add 0 (sleeps tr).

(** A retry of attempt [attempt]: the POST, one warning that ends with
    the attempt count, one sleep of a duration the function uses. *)
Definition retry_round (max_retries : Z) (post : event) (attempt : Z)
    (round : trace) : Prop :=
  exists reason s,
    round = [post;
             EvWarning (reason ++ attempt_note attempt max_retries);
             EvSleep s] /\
    (s = (attempt + 1) * 3 \/ s = 5 \/ s = 3 \/ s = 2).

(** Retries of the attempts [attempt], [attempt + 1], ... *)
Fixpoint retry_rounds (max_retries : Z) (post : event) (attempt : Z)
    (rounds : list trace) : Prop :=
  match rounds with
  | [] => True
  | r :: rs =>
      retry_round max_retries post attempt r /\
      retry_rounds max_retries post (attempt + 1) rs
  end.

(** A service that always raises the same exception. *)
Definition always_raises (k : exn_kind) (text : pystr) : trace -> post_result :=
  always (Raised {| kind := k; exn_str := text |}).

(** * Properties *)

(** ** Strings *)

Lemma startswith_app (p s : pystr) : startswith (p ++ s) p = true.
Proof.
  induction p as [|c p IH]; simpl; [reflexivity|].
  rewrite N.eqb_refl, IH. reflexivity.
Qed.

Lemma str_eqb_refl (s : pystr) : str_eqb s s = true.
Proof.
  induction s as [|c s IH]; simpl; [reflexivity|].
  rewrite N.eqb_refl, IH. reflexivity.
Qed.

(** ** The embedding on small inputs *)

Example strip_spaces : strip (lit "  a b ") = lit "a b".
Proof. reflexivity. Qed.

Example strip_unicode :
  strip (9 :: 10 :: 160 :: lit "x y" ++ [8195; 13; 12288])%N = lit "x y".
Proof. reflexivity. Qed.

Example strip_keeps_inner : strip (lit "a") = lit "a" /\ strip [] = [].
Proof. split; reflexivity. Qed.

Example str_of_int_examples :
  str_of_int 429 = lit "429" /\ str_of_int 0 = lit "0" /\
  str_of_int (-7) = lit "-7".
Proof. repeat split; reflexivity. Qed.

Example attempt_note_first : attempt_note 0 3 = lit "(Attempt 1/3)".
Proof. reflexivity. Qed.

Example blog_user_message :
  map content (blog_messages (lit "T") (lit "k") 400) =
  [ lit "You are a professional blog writer. Write informative, engaging, and well-structured blog posts of approximately 400 words.";
    lit "Write a comprehensive blog post with the following specifications:"
      ++ [10; 10]%N ++ lit "Title: T"
      ++ [10]%N ++ lit "Keywords to include: k"
      ++ [10]%N ++ lit "Target length: 400 words"
      ++ [10]%N ++ lit "Target audience: beginners"
      ++ [10; 10]%N ++ lit "Structure your blog post with:"
      ++ [10]%N ++ lit "1. An engaging introduction"
      ++ [10]%N ++ lit "2. Well-organized main content with clear points"
      ++ [10]%N ++ lit "3. A strong conclusion"
      ++ [10; 10]%N
      ++ lit "Make it informative, easy to understand, and engaging." ].
Proof. reflexivity. Qed.

(** A rate-limited attempt, an unavailable one, then the completion. *)
Example titles_after_two_retries :
  let E := sample_env (scripted [status_only 429; status_only 503]
                         (completion (lit "1. A title "))) in
  let post := post_event E (titles_messages (lit "AI")) (lit "m")
                0.8%float 400 in
  generate_titles E (lit "AI") (lit "m") [] =
  (Val (lit "1. A title"),
   [ post;
     EvWarning (lit "Rate limit hit. Waiting 3 seconds... (Attempt 1/3)");
     EvSleep 3;
     post;
     EvWarning (lit "Model is loading... Retrying in 5 seconds (Attempt 2/3)");
     EvSleep 5;
     post ]).
Proof. vm_compute. reflexivity. Qed.

(** A body of the wrong shape on the last attempt: the fault of the
    interpreter is what the call returns. *)
Example null_content_on_last_attempt :
  fst (query_chat_api
         (sample_env (always (Responded
            {| status_code := 200; text := [];
               body_json :=
                 inr (JDict [(lit "choices",
                              JList [JDict [(lit "message",
                                             JDict [(lit "content", JNull)])]])]) |})))
         sample_messages (lit "m") 1 0.7%float 500 [])
  = Val (lit "Error: <fault>").
Proof. vm_compute. reflexivity. Qed.

(** ** The loop *)

Lemma for_in_app (xs ys : list Z) (body : Z -> Py flow) (tr : trace) :
  for_in (xs ++ ys) body tr =
  match for_in xs body tr with
  | (Val Continue, tr') => for_in ys body tr'
  | other => other
  end.
Proof.
  revert tr. induction xs as [|x xs IH]; intros tr; simpl.
  - reflexivity.
  - unfold py_bind. destruct (body x tr) as [[[site v| ]|e] tr']; simpl; auto.
Qed.

Lemma range_succ (n : nat) :
  range (Z.of_nat (S n)) = range (Z.of_nat n) ++ [Z.of_nat n].
Proof.
  unfold range. rewrite !Nat2Z.id, seq_S, map_app. reflexivity.
Qed.

Lemma range_nonpos (n : Z) : n <= 0 -> range n = [].
Proof.
  intros H. unfold range. destruct n; try reflexivity; lia.
Qed.

(** ** One iteration *)

Ltac run_py :=
  cbn [bind ret raise catch Monad_Py MonadExc_Py];
  unfold py_bind, py_ret, py_raise, py_catch, throw, st_warning, time_sleep,
    emit;
  cbn [bind ret raise catch Monad_Py MonadExc_Py fst snd].

(** Case analysis on an innermost scrutinee of the goal. *)
Ltac split_match :=
  match goal with
  | |- context [match ?x with _ => _ end] =>
      lazymatch x with
      | context [match _ with _ => _ end] => fail
      | _ => destruct x eqn:?
      end
  end.

Section Iteration.

Variable E : env.
Variable headers : list (pystr * pystr).
Variable payload : payload_t.
Variable max_retries : Z.

Lemma on_exception_shape (attempt : Z) (e : exn) (tr : trace) :
  exists f extra,
    on_exception max_retries attempt e tr = (Val f, tr ++ extra) /\
    ends_well max_retries attempt f extra.
Proof.
  unfold on_exception.
  destruct (kind e); destruct (Z.ltb_spec attempt (max_retries - 1));
    run_py;
    try (eexists Continue, [_; _]; rewrite <- app_assoc; split;
         [reflexivity | split; [assumption | eauto]]);
    (eexists (Return _ _), []; rewrite app_nil_r; split;
     [reflexivity | split; [reflexivity | right; reflexivity]]).
Qed.

Lemma try_block_shape (attempt : Z) (tr : trace) :
  let tr' := tr ++ [EvPost API_URL headers payload 60] in
  (exists f extra,
      try_block E headers payload max_retries attempt tr
        = (Val f, tr' ++ extra) /\
      ends_well max_retries attempt f extra) \/
  (exists e,
      try_block E headers payload max_retries attempt tr = (Exc e, tr')).
Proof.
  intros tr'. unfold try_block, requests_post. run_py. fold tr'.
  destruct (network E tr') as [r|e]; [|right; eauto].
  unfold response_json, py_in, py_getitem, py_getitem0, py_len, py_strip,
    py_get.
  repeat (split_match; run_py);
    try (right; eexists; reflexivity);
    left;
    try (eexists Continue, [_; _]; rewrite <- app_assoc; split;
         [reflexivity | split; [lia | eauto]]);
    (eexists (Return _ _), []; rewrite app_nil_r; split;
     [reflexivity | split; [reflexivity | first [left; reflexivity | right; reflexivity]]]).
Qed.

Let post : event := EvPost API_URL headers payload 60.

Lemma attempt_body_shape (attempt : Z) (tr : trace) :
  exists f extra,
    attempt_body E headers payload max_retries attempt tr
      = (Val f, (tr ++ [post]) ++ extra) /\
    ends_well max_retries attempt f extra.
Proof.
  unfold attempt_body. run_py.
  destruct (try_block_shape attempt tr) as [(f & extra & H & Hf)|(e & H)];
    rewrite H.
  - eauto.
  - apply on_exception_shape.
Qed.

Lemma posts_extra (attempt : Z) (f : flow) (extra : trace) :
  ends_well max_retries attempt f extra -> posts extra = [].
Proof.
  destruct f; simpl.
  - intros [-> _]. reflexivity.
  - intros [_ (m & s & ->)]. reflexivity.
Qed.

(** The loop over any attempts [xs]: it never raises, each iteration
    sends the same POST, and it runs out only if every attempt of
    [xs] had a later one after it. *)
Lemma for_in_shape (xs : list Z) (tr : trace) :
  exists f added n,
    for_in xs (attempt_body E headers payload max_retries) tr
      = (Val f, tr ++ added) /\
    posts added = repeat post n /\
    (n <= List.length xs)%nat /\
    (xs <> [] -> (1 <= n)%nat) /\
    match f with
    | Return site v => site = RetContent \/ startswith v (lit "Error") = true
    | Continue => Forall (fun x => x < max_retries - 1) xs
    end.
Proof.
  revert tr. induction xs as [|x xs IH]; intros tr.
  - exists Continue, [], 0%nat. simpl. run_py. rewrite app_nil_r.
    repeat split; auto. congruence.
  - destruct (attempt_body_shape x tr) as (f & extra & Hrun & Hf).
    pose proof (posts_extra _ _ _ Hf) as Hextra.
    simpl. run_py. rewrite Hrun. destruct f as [site v|].
    + destruct Hf as [-> Hv].
      exists (Return site v), [post], 1%nat. rewrite app_nil_r.
      repeat split; simpl; auto; lia.
    + destruct Hf as [Hlt _].
      destruct (IH ((tr ++ [post]) ++ extra))
        as (f' & added & n & Hrest & Hposts & Hn & _ & Hf').
      exists f', (post :: extra ++ added), (S n). rewrite Hrest.
      repeat split.
      * f_equal. rewrite <- !app_assoc. reflexivity.
      * unfold posts in *. cbn [filter post is_post].
        rewrite filter_app, Hextra, Hposts. reflexivity.
      * simpl. lia.
      * lia.
      * destruct f'; auto.
Qed.

End Iteration.

(** ** The whole call *)

(** Every call returns a string, having sent between one (when
    [max_retries >= 1]) and [max_retries] POSTs, all the same. *)
Lemma query_chat_api_at_shape (E : env) (messages : list message)
    (model : pystr) (max_retries : Z) (temperature : float) (max_tokens : Z)
    (tr : trace) :
  exists site v added n,
    query_chat_api_at E messages model max_retries temperature max_tokens tr
      = (Val (site, v), tr ++ added) /\
    posts added =
      repeat (EvPost API_URL (build_headers E)
                (build_payload messages model temperature max_tokens) 60) n /\
    (n <= Z.to_nat max_retries)%nat /\
    (1 <= max_retries -> (1 <= n)%nat /\ site <> None) /\
    (site = Some RetContent \/ startswith v (lit "Error") = true).
Proof.
  unfold query_chat_api_at. run_py.
  destruct (for_in_shape E (build_headers E)
              (build_payload messages model temperature max_tokens)
              max_retries (range max_retries) tr)
    as (f & added & n & Hrun & Hposts & Hn & Hone & Hf).
  rewrite Hrun.
  assert (Hlen : List.length (range max_retries) = Z.to_nat max_retries).
  { unfold range. rewrite length_map, length_seq. reflexivity. }
  assert (Hne : 1 <= max_retries -> range max_retries <> []).
  { intros H Hnil. rewrite Hnil in Hlen. simpl in Hlen. lia. }
  destruct f as [site v|].
  - exists (Some site), v, added, n. repeat split; auto; try lia.
    + congruence.
    + destruct Hf as [->|Hv]; auto.
  - exists None, (lit "Error: All retry attempts failed."), added, n.
    repeat split; auto; try lia.
    exfalso.
    assert (Hin : In (max_retries - 1) (range max_retries)).
    { unfold range. apply in_map_iff. exists (Z.to_nat (max_retries - 1)).
      split; [lia|]. apply in_seq. lia. }
    rewrite Forall_forall in Hf. specialize (Hf _ Hin). lia.
Qed.

Lemma range_split (k n : Z) :
  0 <= k < n -> exists rest, range n = range k ++ k :: rest.
Proof.
  intros H. unfold range.
  replace (Z.to_nat n)
    with (Z.to_nat k + S (Z.to_nat (n - k - 1)))%nat by lia.
  rewrite seq_app, map_app. simpl. rewrite Z2Nat.id by lia. eauto.
Qed.

(** A call whose attempts before [k] all reached [continue] returns what
    attempt [k] returns. *)
Lemma call_returns_at (E : env) (messages : list message) (model : pystr)
    (max_retries : Z) (temperature : float) (max_tokens : Z)
    (k : Z) (tr0 tr tr' : trace) (site : ret_site) (v : pystr) :
  0 <= k < max_retries ->
  for_in (range k)
    (attempt_body E (build_headers E)
       (build_payload messages model temperature max_tokens) max_retries)
    tr0 = (Val Continue, tr) ->
  attempt_body E (build_headers E)
    (build_payload messages model temperature max_tokens) max_retries k tr
    = (Val (Return site v), tr') ->
  query_chat_api_at E messages model max_retries temperature max_tokens tr0
    = (Val (Some site, v), tr').
Proof.
  intros Hk Hprefix Hlast.
  destruct (range_split k max_retries Hk) as [rest Hrange].
  unfold query_chat_api_at. run_py.
  rewrite Hrange, for_in_app, Hprefix. simpl. run_py.
  rewrite Hlast. reflexivity.
Qed.

Lemma query_chat_api_value (E : env) (messages : list message)
    (model : pystr) (max_retries : Z) (temperature : float) (max_tokens : Z)
    (tr tr' : trace) (site : option ret_site) (v : pystr) :
  query_chat_api_at E messages model max_retries temperature max_tokens tr
    = (Val (site, v), tr') ->
  query_chat_api E messages model max_retries temperature max_tokens tr
    = (Val v, tr').
Proof.
  intros H. unfold query_chat_api. run_py. rewrite H. reflexivity.
Qed.

(** ** What one iteration does, by the answer of the service *)

Section Answers.

Variable E : env.
Variable headers : list (pystr * pystr).
Variable payload : payload_t.
Variable max_retries attempt : Z.
Variable tr : trace.

Let post : event := EvPost API_URL headers payload 60.
Let body := attempt_body E headers payload max_retries attempt.

Ltac answer H :=
  unfold body, attempt_body, try_block, requests_post; run_py;
  fold post; rewrite H.

Lemma answer_content (r : response_t) (parsed : json) (c : pystr) :
  network E (tr ++ [post]) = Responded r ->
  status_code r = 200 ->
  body_json r = inr parsed ->
  first_choice_content parsed = Some c ->
  body tr = (Val (Return RetContent (strip c)), tr ++ [post]).
Proof.
  intros Hnet Hstatus Hbody Hc. answer Hnet. rewrite Hstatus. simpl.
  unfold response_json. rewrite Hbody. run_py.
  unfold first_choice_content in Hc.
  repeat match type of Hc with
         | context [match ?x with _ => _ end] =>
             destruct x eqn:?; try discriminate Hc
         end.
  injection Hc as ->.
  unfold py_in, py_getitem, dict_has, py_len, py_getitem0, py_strip.
  repeat match goal with
         | H : dict_get _ _ = Some _ |- _ => rewrite H; clear H; run_py
         end.
  reflexivity.
Qed.

Lemma answer_no_choices (r : response_t) (parsed : json) :
  network E (tr ++ [post]) = Responded r ->
  status_code r = 200 ->
  body_json r = inr parsed ->
  no_choices parsed = true ->
  body tr = (Val (Return RetNoResponse (lit "Error: No response generated")),
             tr ++ [post]).
Proof.
  intros Hnet Hstatus Hbody Hc. answer Hnet. rewrite Hstatus. simpl.
  unfold response_json. rewrite Hbody. run_py.
  unfold no_choices in Hc.
  repeat match type of Hc with
         | context [match ?x with _ => _ end] =>
             destruct x eqn:?; try discriminate Hc
         end;
    unfold py_in, py_getitem, dict_has, py_len;
    repeat match goal with
           | H : dict_get _ _ = _ |- _ => rewrite H; clear H; run_py
           end;
    reflexivity.
Qed.

Lemma answer_401 (r : response_t) :
  network E (tr ++ [post]) = Responded r ->
  status_code r = 401 ->
  body tr =
    (Val (Return RetInvalidToken
            (lit "Error: Invalid API token. Please check your Hugging Face API key.")),
     tr ++ [post]).
Proof.
  intros Hnet Hstatus. answer Hnet. rewrite Hstatus. reflexivity.
Qed.

Lemma answer_429_retry (r : response_t) :
  network E (tr ++ [post]) = Responded r ->
  status_code r = 429 ->
  attempt < max_retries - 1 ->
  body tr =
    (Val Continue,
     tr ++ [post;
            EvWarning (lit "Rate limit hit. Waiting " ++
                       str_of_int ((attempt + 1) * 3) ++
                       lit " seconds... " ++
                       attempt_note attempt max_retries);
            EvSleep ((attempt + 1) * 3)]).
Proof.
  intros Hnet Hstatus Hlt. answer Hnet. rewrite Hstatus. simpl.
  apply Z.ltb_lt in Hlt. rewrite Hlt. run_py.
  rewrite <- !app_assoc. reflexivity.
Qed.

(** With no attempt left, a retryable condition ends the call. *)
Lemma answer_last (msg : pystr) :
  retryable (network E (tr ++ [post])) msg ->
  max_retries - 1 <= attempt ->
  exists site, body tr = (Val (Return site msg), tr ++ [post]).
Proof.
  intros Hretry Hlast. apply Z.ltb_ge in Hlast.
  inversion Hretry as [r Hs Hnet|r Hs Hnet|e Hk Hnet|e Hk Hnet|e Hk Hnet];
    symmetry in Hnet; answer Hnet;
    try (rewrite Hs; simpl); try (unfold on_exception; rewrite Hk);
    rewrite Hlast; run_py; eauto.
Qed.

(** A status outside 200, 429, 401 and 503 with a JSON object as
    body: the string returned embeds the status and the [error] member
    of the object, or the raw body if the object has no such member. *)
Lemma answer_other_status (r : response_t) (d : list (pystr * json)) :
  network E (tr ++ [post]) = Responded r ->
  ~ In (status_code r) [200; 429; 401; 503] ->
  body_json r = inr (JDict d) ->
  body tr =
    (Val (Return RetApiStatus
            (lit "Error: API returned status " ++
             str_of_int (status_code r) ++ lit " - " ++
             py_str E (match dict_get d (lit "error") with
                       | Some payload => payload
                       | None => JStr (text r)
                       end))),
     tr ++ [post]).
Proof.
  intros Hnet Hstatus Hbody. answer Hnet.
  simpl in Hstatus.
  repeat match goal with
         | |- context [status_code r =? ?c] =>
             destruct (Z.eqb_spec (status_code r) c);
             [exfalso; apply Hstatus; lia|]
         end.
  unfold response_json. rewrite Hbody. run_py. reflexivity.
Qed.

End Answers.

(** A status outside 200, 429, 401 and 503 at any attempt, with a JSON
    object as body, ends the call with the status and the error payload. *)
Lemma other_status_is_terminal (E : env) (messages : list message)
    (model : pystr) (max_retries : Z) (temperature : float) (max_tokens : Z)
    (k : Z) (tr0 tr : trace) (r : response_t) (d : list (pystr * json)) :
  0 <= k < max_retries ->
  for_in (range k)
    (attempt_body E (build_headers E)
       (build_payload messages model temperature max_tokens) max_retries)
    tr0 = (Val Continue, tr) ->
  network E (tr ++ [post_event E messages model temperature max_tokens])
    = Responded r ->
  ~ In (status_code r) [200; 429; 401; 503] ->
  body_json r = inr (JDict d) ->
  query_chat_api E messages model max_retries temperature max_tokens tr0
    = (Val (lit "Error: API returned status " ++
            str_of_int (status_code r) ++ lit " - " ++
            py_str E (match dict_get d (lit "error") with
                      | Some payload => payload
                      | None => JStr (text r)
                      end)),
       tr ++ [post_event E messages model temperature max_tokens]).
Proof.
  intros Hk Hprefix Hnet Hstatus Hbody.
  apply query_chat_api_value with (site := Some RetApiStatus).
  apply call_returns_at with (k := k) (tr := tr); auto.
  apply answer_other_status; assumption.
Qed.

(** * The claims *)

(** C1.  When an attempt of [query_chat_api] is answered with status
    200 and a JSON body, the call returns at once: if the body has a
    non-empty [choices] array whose first element has a string
    [message.content], the value returned is exactly that content with
    the surrounding whitespace stripped; if [choices] is missing or
    empty, it is ["Error: No response generated"].  In both cases the
    POST of that attempt is the last event of the call: nothing is
    retried. *)
Theorem ok_returns_stripped_content (E : env) (messages : list message)
    (model : pystr) (max_retries : Z) (temperature : float) (max_tokens : Z)
    (k : Z) (tr0 tr : trace) (r : response_t) (parsed : json) :
  0 <= k < max_retries ->
  for_in (range k)
    (attempt_body E (build_headers E)
       (build_payload messages model temperature max_tokens) max_retries)
    tr0 = (Val Continue, tr) ->
  network E (tr ++ [post_event E messages model temperature max_tokens])
    = Responded r ->
  status_code r = 200 ->
  body_json r = inr parsed ->
  (forall c, first_choice_content parsed = Some c ->
     query_chat_api E messages model max_retries temperature max_tokens tr0
       = (Val (strip c),
          tr ++ [post_event E messages model temperature max_tokens])) /\
  (no_choices parsed = true ->
     query_chat_api E messages model max_retries temperature max_tokens tr0
       = (Val (lit "Error: No response generated"),
          tr ++ [post_event E messages model temperature max_tokens])).
Proof.
  intros Hk Hprefix Hnet Hstatus Hbody. split.
  - intros c Hc.
    apply query_chat_api_value with (site := Some RetContent).
    apply call_returns_at with (k := k) (tr := tr); auto.
    eapply answer_content; eauto.
  - intros Hnone.
    apply query_chat_api_value with (site := Some RetNoResponse).
    apply call_returns_at with (k := k) (tr := tr); auto.
    eapply answer_no_choices; eauto.
Qed.

(** A rate-limited first attempt, then a completion; and a body with an
    empty [choices] array on the first attempt. *)
Lemma ok_returns_stripped_content_witness :
  fst (query_chat_api
         (sample_env (scripted [status_only 429]
                        (completion (lit "  Hello there. "))))
         sample_messages (lit "m") 3 0.7%float 500 [])
    = Val (lit "Hello there.") /\
  fst (query_chat_api
         (sample_env (always (Responded
            {| status_code := 200; text := [];
               body_json := inr (JDict [(lit "choices", JList [])]) |})))
         sample_messages (lit "m") 3 0.7%float 500 [])
    = Val (lit "Error: No response generated").
Proof.
  split.
  - edestruct (ok_returns_stripped_content
                 (sample_env (scripted [status_only 429]
                                (completion (lit "  Hello there. "))))
                 sample_messages (lit "m") 3 0.7%float 500 1 [])
      as [H _];
      [lia | vm_compute; reflexivity | vm_compute; reflexivity
      | reflexivity | reflexivity |].
    rewrite (H (lit "  Hello there. ") eq_refl). reflexivity.
  - edestruct (ok_returns_stripped_content
                 (sample_env (always (Responded
                    {| status_code := 200; text := [];
                       body_json := inr (JDict [(lit "choices", JList [])]) |})))
                 sample_messages (lit "m") 3 0.7%float 500 0 [])
      as [_ H];
      [lia | vm_compute; reflexivity | vm_compute; reflexivity
      | reflexivity | reflexivity |].
    rewrite (H eq_refl). reflexivity.
Defined.

(** C3.  For every [max_retries >= 1], a first attempt answered with
    status 401 makes [query_chat_api] return the invalid-token message
    after that single POST: no warning, no sleep, no second attempt. *)
Theorem unauthorized_is_terminal (E : env) (messages : list message)
    (model : pystr) (max_retries : Z) (temperature : float) (max_tokens : Z)
    (tr : trace) (r : response_t) :
  1 <= max_retries ->
  network E (tr ++ [post_event E messages model temperature max_tokens])
    = Responded r ->
  status_code r = 401 ->
  query_chat_api E messages model max_retries temperature max_tokens tr
    = (Val (lit "Error: Invalid API token. Please check your Hugging Face API key."),
       tr ++ [post_event E messages model temperature max_tokens]).
Proof.
  intros Hmax Hnet Hstatus.
  apply query_chat_api_value with (site := Some RetInvalidToken).
  apply call_returns_at with (k := 0) (tr := tr); [lia | reflexivity |].
  apply answer_401 with (r := r); assumption.
Qed.

Lemma unauthorized_is_terminal_witness :
  query_chat_api (sample_env (always (status_only 401)))
    sample_messages (lit "m") 5 0.7%float 500 []
    = (Val (lit "Error: Invalid API token. Please check your Hugging Face API key."),
       [post_event (sample_env (always (status_only 401)))
          sample_messages (lit "m") 0.7%float 500]).
Proof.
  apply (unauthorized_is_terminal (sample_env (always (status_only 401)))
           sample_messages (lit "m") 5 0.7%float 500
           [] {| status_code := 401; text := []; body_json := inr (JDict []) |});
    [lia | reflexivity | reflexivity].
Defined.

Lemma sleeps_app (a b : trace) : sleeps (a ++ b) = sleeps a ++ sleeps b.
Proof.
  induction a as [|[ | |] a IH]; simpl; auto. rewrite IH. reflexivity.
Qed.

Section RateLimited.

Variable E : env.
Variable messages : list message.
Variable model : pystr.
Variable max_retries : Z.
Variable temperature : float.
Variable max_tokens : Z.

Hypothesis always_429 :
  forall h, exists r, network E h = Responded r /\ status_code r = 429.

Let round := rate_limited_round E messages model max_retries temperature
               max_tokens.

Lemma rate_limited_prefix (n : nat) (tr : trace) :
  Z.of_nat n <= max_retries - 1 ->
  for_in (range (Z.of_nat n))
    (attempt_body E (build_headers E)
       (build_payload messages model temperature max_tokens) max_retries) tr
    = (Val Continue, tr ++ flat_map round (range (Z.of_nat n))).
Proof.
  induction n as [|n IH]; intros Hn.
  - simpl. run_py. rewrite app_nil_r. reflexivity.
  - rewrite range_succ, for_in_app, IH, flat_map_app by lia.
    destruct (always_429
                ((tr ++ flat_map round (range (Z.of_nat n))) ++
                 [post_event E messages model temperature max_tokens]))
      as (r & Hnet & Hstatus).
    simpl. run_py.
    rewrite (answer_429_retry _ _ _ _ _ _ r Hnet Hstatus) by lia.
    rewrite <- app_assoc. reflexivity.
Qed.

Lemma posts_rounds (xs : list Z) :
  List.length (posts (flat_map round xs)) = List.length xs.
Proof.
  induction xs as [|x xs IH]; simpl; auto.
Qed.

Lemma sleeps_rounds (xs : list Z) :
  sleeps (flat_map round xs) = map (fun i => (i + 1) * 3) xs.
Proof.
  induction xs as [|x xs IH]; simpl; auto. rewrite IH. reflexivity.
Qed.

End RateLimited.

(** C4.  For every [max_retries >= 1], if every attempt is answered
    with status 429 then [query_chat_api] returns the rate-limit message
    after exactly [max_retries] POSTs; each attempt [i] but the last is
    followed by a warning and a sleep of [(i + 1) * 3] seconds, so the
    sleeps are 3, 6, 9, ..., [max_retries - 1] of them. *)
Theorem rate_limit_backoff (E : env) (messages : list message)
    (model : pystr) (max_retries : Z) (temperature : float) (max_tokens : Z)
    (tr : trace) :
  1 <= max_retries ->
  (forall h, exists r, network E h = Responded r /\ status_code r = 429) ->
  exists added,
    query_chat_api E messages model max_retries temperature max_tokens tr
      = (Val (lit "Error: Rate limit exceeded. Please wait a minute and try again."),
         tr ++ added) /\
    added =
      flat_map (rate_limited_round E messages model max_retries temperature
                  max_tokens) (range (max_retries - 1)) ++
      [post_event E messages model temperature max_tokens] /\
    List.length (posts added) = Z.to_nat max_retries /\
    sleeps added = map (fun i => (i + 1) * 3) (range (max_retries - 1)) /\
    List.length (sleeps added) = Z.to_nat (max_retries - 1).
Proof.
  intros Hmax H429.
  pose proof (rate_limited_prefix E messages model max_retries temperature
                max_tokens H429 (Z.to_nat (max_retries - 1)) tr) as Hprefix.
  rewrite Z2Nat.id in Hprefix by lia. specialize (Hprefix (Z.le_refl _)).
  set (rounds := flat_map _ _) in *.
  destruct (H429 ((tr ++ rounds) ++
                  [post_event E messages model temperature max_tokens]))
    as (r & Hnet & Hstatus).
  destruct (answer_last E (build_headers E)
              (build_payload messages model temperature max_tokens)
              max_retries (max_retries - 1) (tr ++ rounds)
              (lit "Error: Rate limit exceeded. Please wait a minute and try again."))
    as [site Hlast].
  { unfold post_event in Hnet. rewrite Hnet. constructor. exact Hstatus. }
  { lia. }
  exists (rounds ++ [post_event E messages model temperature max_tokens]).
  split; [|split; [reflexivity|]].
  - apply query_chat_api_value with (site := Some site).
    apply call_returns_at with (k := max_retries - 1) (tr := tr ++ rounds);
      [lia | exact Hprefix |].
    rewrite Hlast, <- app_assoc. reflexivity.
  - assert (Hsleeps : sleeps (rounds ++
                [post_event E messages model temperature max_tokens])
              = map (fun i => (i + 1) * 3) (range (max_retries - 1))).
    { rewrite sleeps_app. unfold rounds. rewrite sleeps_rounds.
      simpl. apply app_nil_r. }
    split; [|split; [exact Hsleeps|]].
    + unfold posts. rewrite filter_app, length_app. fold (posts rounds).
      unfold rounds. rewrite posts_rounds. unfold range.
      rewrite length_map, length_seq. simpl. lia.
    + rewrite Hsleeps. unfold range. rewrite !length_map, length_seq.
      reflexivity.
Qed.

Lemma rate_limit_backoff_witness :
  exists added,
    query_chat_api (sample_env (always (status_only 429)))
      sample_messages (lit "m") 3 0.7%float 500 []
      = (Val (lit "Error: Rate limit exceeded. Please wait a minute and try again."),
         added) /\
    List.length (posts added) = 3%nat /\
    sleeps added = [3; 6].
Proof.
  destruct (rate_limit_backoff (sample_env (always (status_only 429)))
              sample_messages (lit "m") 3 0.7%float 500 [])
    as (added & Hrun & _ & Hposts & Hsleeps & _).
  - lia.
  - intros h. eexists. split; reflexivity.
  - exists added. split; [exact Hrun|]. split; [exact Hposts | exact Hsleeps].
Defined.

(** C2.  The code at a status outside 200, 429, 401 and 503 whose body
    is not JSON (here 500 with a plain-text page, [max_retries = 3]):
    [response.json()] raises before the fallback to [response.text] can
    apply, the fault reaches the last [except] clause, and the call
    warns, sleeps two seconds and posts again, twice; the string it
    finally returns holds the decode error and not the status code. *)
Theorem unparseable_error_body_is_retried :
  query_chat_api (sample_env (always error_page))
    sample_messages (lit "m") 3 0.7%float 500 []
  = (Val (lit "Error: Expecting value: line 1 column 1 (char 0)"),
     [ post_event (sample_env (always error_page)) sample_messages (lit "m")
         0.7%float 500;
       EvWarning (lit "Unexpected error: Expecting value: line 1 column 1 (char 0). Retrying... (Attempt 1/3)");
       EvSleep 2;
       post_event (sample_env (always error_page)) sample_messages (lit "m")
         0.7%float 500;
       EvWarning (lit "Unexpected error: Expecting value: line 1 column 1 (char 0). Retrying... (Attempt 2/3)");
       EvSleep 2;
       post_event (sample_env (always error_page)) sample_messages (lit "m")
         0.7%float 500 ]).
Proof. vm_compute. reflexivity. Qed.

(** C5.  With [max_retries = 1], a retryable condition on the single
    attempt (status 429 or 503, a timeout, a connection error, any other
    exception) makes [query_chat_api] return the message of that
    condition right after the POST: the call adds no warning and no
    sleep to the trace. *)
Theorem single_attempt_never_waits (E : env) (messages : list message)
    (model : pystr) (temperature : float) (max_tokens : Z) (tr : trace)
    (msg : pystr) :
  retryable
    (network E (tr ++ [post_event E messages model temperature max_tokens]))
    msg ->
  exists added,
    query_chat_api E messages model 1 temperature max_tokens tr
      = (Val msg, tr ++ added) /\
    added = [post_event E messages model temperature max_tokens] /\
    sleeps added = [] /\
    warnings added = [].
Proof.
  intros Hretry.
  destruct (answer_last E (build_headers E)
              (build_payload messages model temperature max_tokens)
              1 0 tr msg Hretry) as [site Hlast]; [lia|].
  exists [post_event E messages model temperature max_tokens].
  repeat split.
  apply query_chat_api_value with (site := Some site).
  apply call_returns_at with (k := 0) (tr := tr); [lia | reflexivity | exact Hlast].
Qed.

Lemma single_attempt_never_waits_witness :
  exists added,
    query_chat_api
      (sample_env (always (Raised {| kind := KTimeout;
                                     exn_str := lit "Read timed out." |})))
      sample_messages (lit "m") 1 0.7%float 500 []
      = (Val (lit "Error: Request timed out after multiple attempts."), added) /\
    sleeps added = [].
Proof.
  destruct (single_attempt_never_waits
              (sample_env (always (Raised {| kind := KTimeout;
                                             exn_str := lit "Read timed out." |})))
              sample_messages (lit "m") 0.7%float 500 []
              (lit "Error: Request timed out after multiple attempts."))
    as (added & Hrun & _ & Hsleeps & _).
  - apply retry_timeout. reflexivity.
  - exists added. split; [exact Hrun | exact Hsleeps].
Defined.

(** ** What a call posts *)

Lemma posted_repeat (tr : trace) (url : pystr) (headers : list (pystr * pystr))
    (p : payload_t) (timeout : Z) (n : nat) :
  posts tr = repeat (EvPost url headers p timeout) n ->
  posted tr = repeat p n.
Proof.
  revert n. induction tr as [|e tr IH]; intros n H.
  - destruct n; [reflexivity | discriminate H].
  - destruct e; simpl in *; auto.
    destruct n as [|n]; [discriminate H|]. simpl in H.
    injection H as _ _ -> _ H. rewrite (IH n H). reflexivity.
Qed.

Lemma repeat_Forall {A} (x : A) (n : nat) (l : list A) :
  l = repeat x n -> Forall (eq x) l.
Proof.
  intros ->. induction n; simpl; constructor; auto.
Qed.

(** C6.  For every word count, [generate_blog_content] sends at least
    one POST, and the payload of each has [max_tokens] equal to
    [min (2 * blog_length) 2000] and temperature 0.7; with 400 words
    that is 800 tokens, with 1200 words 2000. *)
Theorem blog_max_tokens (E : env) (title keywords : pystr) (blog_length : Z)
    (model : pystr) (tr : trace) :
  exists v added n,
    generate_blog_content E title keywords blog_length model tr
      = (Val v, tr ++ added) /\
    (1 <= n <= 3)%nat /\
    posted added =
      repeat {| p_messages := blog_messages title keywords blog_length;
                p_model := model;
                p_temperature := 0.7%float;
                p_max_tokens := Z.min (2 * blog_length) 2000;
                p_stream := false |} n /\
    (blog_length = 400 -> map p_max_tokens (posted added) = repeat 800 n) /\
    (blog_length = 1200 -> map p_max_tokens (posted added) = repeat 2000 n).
Proof.
  unfold generate_blog_content.
  destruct (query_chat_api_at_shape E
              (blog_messages title keywords blog_length) model
              default_max_retries 0.7%float (Z.min (blog_length * 2) 2000) tr)
    as (site & v & added & n & Hrun & Hposts & Hn & Hone & _).
  apply posted_repeat in Hposts.
  exists v, added, n.
  split; [exact (query_chat_api_value _ _ _ _ _ _ _ _ _ _ Hrun)|].
  split; [unfold default_max_retries in *; simpl in Hn; lia|].
  rewrite Hposts, (Z.mul_comm blog_length 2). unfold build_payload.
  split; [reflexivity|].
  split; intros ->; rewrite map_repeat; reflexivity.
Qed.

(** C7.  Whatever the arguments and whatever the service does on each
    POST (any status, any body, any exception), [query_chat_api] ends
    with a value and not with an exception; that value is the stripped
    completion or a message that starts with [Error]. *)
Theorem no_exception_escapes (E : env) (messages : list message)
    (model : pystr) (max_retries : Z) (temperature : float) (max_tokens : Z)
    (tr : trace) :
  exists site v tr',
    query_chat_api E messages model max_retries temperature max_tokens tr
      = (Val v, tr') /\
    query_chat_api_at E messages model max_retries temperature max_tokens tr
      = (Val (site, v), tr') /\
    (site = Some RetContent \/ startswith v (lit "Error") = true).
Proof.
  destruct (query_chat_api_at_shape E messages model max_retries temperature
              max_tokens tr)
    as (site & v & added & n & Hrun & _ & _ & _ & Hv).
  exists site, v, (tr ++ added).
  split; [exact (query_chat_api_value _ _ _ _ _ _ _ _ _ _ Hrun)|].
  split; assumption.
Qed.

(** C9.  For every [max_retries >= 1], [query_chat_api] returns through
    a return statement inside the loop: the statement after the loop,
    which returns ["Error: All retry attempts failed."], is not
    reached. *)
Theorem fallback_unreachable (E : env) (messages : list message)
    (model : pystr) (max_retries : Z) (temperature : float) (max_tokens : Z)
    (tr : trace) :
  1 <= max_retries ->
  exists site v tr',
    query_chat_api_at E messages model max_retries temperature max_tokens tr
      = (Val (Some site, v), tr').
Proof.
  intros Hmax.
  destruct (query_chat_api_at_shape E messages model max_retries temperature
              max_tokens tr)
    as (site & v & added & n & Hrun & _ & _ & Hone & _).
  destruct (Hone Hmax) as [_ Hsite].
  destruct site as [site|]; [|congruence].
  exists site, v, (tr ++ added). exact Hrun.
Qed.

Lemma fallback_unreachable_witness :
  exists site v tr',
    query_chat_api_at (sample_env (always (status_only 503)))
      sample_messages (lit "m") 2 0.7%float 500 []
      = (Val (Some site, v), tr').
Proof.
  apply (fallback_unreachable (sample_env (always (status_only 503)))
           sample_messages (lit "m") 2 0.7%float 500 []).
  lia.
Defined.

(** Without the bound the last line is reached: no attempt is made. *)
Lemma fallback_without_attempts (E : env) (messages : list message)
    (model : pystr) (max_retries : Z) (temperature : float) (max_tokens : Z)
    (tr : trace) :
  max_retries <= 0 ->
  query_chat_api_at E messages model max_retries temperature max_tokens tr
    = (Val (None, lit "Error: All retry attempts failed."), tr).
Proof.
  intros H. unfold query_chat_api_at. rewrite (range_nonpos _ H). reflexivity.
Qed.

(** C10.  The headers and the payload (messages, model, temperature,
    max_tokens, [stream] false) are those built from the arguments
    before the loop, and every POST of a call carries exactly them,
    whatever the number of attempts. *)
Theorem request_is_fixed (E : env) (messages : list message)
    (model : pystr) (max_retries : Z) (temperature : float) (max_tokens : Z)
    (tr : trace) :
  exists v added,
    query_chat_api E messages model max_retries temperature max_tokens tr
      = (Val v, tr ++ added) /\
    Forall (eq (EvPost API_URL
                  [ (lit "Authorization",
                     lit "Bearer " ++ hugging_face_api_key E);
                    (lit "Content-Type", lit "application/json") ]
                  {| p_messages := messages;
                     p_model := model;
                     p_temperature := temperature;
                     p_max_tokens := max_tokens;
                     p_stream := false |}
                  60))
           (posts added).
Proof.
  destruct (query_chat_api_at_shape E messages model max_retries temperature
              max_tokens tr)
    as (site & v & added & n & Hrun & Hposts & _).
  exists v, added.
  split; [exact (query_chat_api_value _ _ _ _ _ _ _ _ _ _ Hrun)|].
  exact (repeat_Forall _ _ _ Hposts).
Qed.

(** ** The display of a result *)

Lemma display_title_results_error (s : pystr) :
  display_title_results s = [StError s] <->
  startswith s (lit "Error") = true.
Proof.
  unfold display_title_results.
  destruct (startswith s (lit "Error")); split; intros H;
    solve [reflexivity | discriminate H].
Qed.

Lemma display_blog_results_error (title s keywords : pystr) :
  display_blog_results (mkBlogResults title s keywords) = [StError s] <->
  startswith s (lit "Error") = true.
Proof.
  unfold display_blog_results. simpl br_content.
  destruct (startswith s (lit "Error")); split; intros H;
    solve [reflexivity | discriminate H].
Qed.

(** C8.  Of any result [v] of [query_chat_api]: if it does not come from
    the return of the completion (line 60) it starts with [Error]; the
    two displays show [v] as an error exactly when [v] starts with
    [Error], looking at nothing else; so a completion whose stripped
    content starts with [Error] is shown as an error by both. *)
Theorem error_prefix_decides_display (E : env) (messages : list message)
    (model : pystr) (max_retries : Z) (temperature : float) (max_tokens : Z)
    (tr tr' : trace) (site : option ret_site) (v : pystr) :
  query_chat_api_at E messages model max_retries temperature max_tokens tr
    = (Val (site, v), tr') ->
  (site <> Some RetContent -> startswith v (lit "Error") = true) /\
  (display_title_results v = [StError v] <->
   startswith v (lit "Error") = true) /\
  (forall title keywords,
     display_blog_results (mkBlogResults title v keywords) = [StError v] <->
     startswith v (lit "Error") = true) /\
  (site = Some RetContent -> startswith v (lit "Error") = true ->
   display_title_results v = [StError v] /\
   forall title keywords,
     display_blog_results (mkBlogResults title v keywords) = [StError v]).
Proof.
  intros Hrun.
  destruct (query_chat_api_at_shape E messages model max_retries temperature
              max_tokens tr)
    as (site' & v' & added & n & Hrun' & _ & _ & _ & Hv).
  rewrite Hrun in Hrun'. injection Hrun' as <- <- _.
  split; [intros Hsite; destruct Hv; [contradiction | assumption]|].
  split; [apply display_title_results_error|].
  split; [intros; apply display_blog_results_error|].
  intros _ Hprefix. split.
  - apply display_title_results_error, Hprefix.
  - intros. apply display_blog_results_error, Hprefix.
Qed.

(** A completion that begins with the word [Error]. *)
Lemma error_prefix_decides_display_witness :
  fst (query_chat_api_at
         (sample_env (always (completion (lit " Error budgets, explained"))))
         sample_messages (lit "m") 3 0.8%float 400 [])
    = Val (Some RetContent, lit "Error budgets, explained") /\
  display_title_results (lit "Error budgets, explained")
    = [StError (lit "Error budgets, explained")].
Proof.
  split; [vm_compute; reflexivity|].
  refine (proj1 (proj2 (proj2 (proj2
    (error_prefix_decides_display
       (sample_env (always (completion (lit " Error budgets, explained"))))
       sample_messages (lit "m") 3 0.8%float 400 []
       [post_event
          (sample_env (always (completion (lit " Error budgets, explained"))))
          sample_messages (lit "m") 0.8%float 400]
       (Some RetContent) (lit "Error budgets, explained") _))) eq_refl eq_refl)).
  vm_compute. reflexivity.
Defined.

(** * Beyond the claims *)

(** ** [strip] *)

Lemma str_eqb_eq (a b : pystr) : str_eqb a b = true <-> a = b.
Proof.
  revert b. induction a as [|x a IH]; intros [|y b]; simpl;
    try (split; [discriminate | discriminate]); try tauto.
  rewrite andb_true_iff, N.eqb_eq, IH. split.
  - intros [-> ->]. reflexivity.
  - intros H. injection H as -> ->. auto.
Qed.

Lemma lstrip_split (s : pystr) :
  exists ws, s = ws ++ lstrip s /\ all_space ws.
Proof.
  induction s as [|c s (ws & Hs & Hws)]; simpl.
  - exists []. split; [reflexivity | constructor].
  - destruct (isspace c) eqn:Hc.
    + exists (c :: ws). split; [simpl; congruence | constructor; assumption].
    + exists []. split; [reflexivity | constructor].
Qed.

Lemma lstrip_head (s : pystr) (c : N) (t : pystr) :
  lstrip s = c :: t -> isspace c = false.
Proof.
  induction s as [|x s IH]; simpl; [discriminate|].
  destruct (isspace x) eqn:Hx; [exact IH|].
  intros H. injection H as <- _. exact Hx.
Qed.

Lemma lstrip_fixed (s : pystr) :
  (forall c t, s = c :: t -> isspace c = false) -> lstrip s = s.
Proof.
  destruct s as [|c t]; intros H; simpl; [reflexivity|].
  rewrite (H c t eq_refl). reflexivity.
Qed.

(** [strip] removes a run of whitespace at each end and leaves a string
    with no whitespace at either end. *)
Lemma strip_spec (s : pystr) :
  (exists l r, s = l ++ strip s ++ r /\ all_space l /\ all_space r) /\
  (forall c t, strip s = c :: t -> isspace c = false) /\
  (forall c t, strip s = t ++ [c] -> isspace c = false).
Proof.
  unfold strip, rstrip.
  destruct (lstrip_split s) as (l & Hs & Hl).
  destruct (lstrip_split (rev (lstrip s))) as (ws & Hrev & Hws).
  assert (Ha : lstrip s = rev (lstrip (rev (lstrip s))) ++ rev ws).
  { rewrite <- (rev_involutive (lstrip s)) at 1.
    rewrite Hrev at 1. apply rev_app_distr. }
  split; [|split].
  - exists l, (rev ws). split; [|split].
    + rewrite <- Ha. exact Hs.
    + exact Hl.
    + apply Forall_rev. exact Hws.
  - intros c t H. rewrite H in Ha. simpl in Ha.
    apply (lstrip_head s c _ Ha).
  - intros c t H.
    apply (f_equal (@rev N)) in H.
    rewrite rev_involutive, rev_app_distr in H. simpl in H.
    apply (lstrip_head _ c _ H).
Qed.

Lemma strip_idempotent (s : pystr) : strip (strip s) = strip s.
Proof.
  destruct (strip_spec s) as (_ & Hhd & Hlast).
  set (v := strip s) in *. unfold strip, rstrip.
  rewrite (lstrip_fixed v Hhd).
  rewrite (lstrip_fixed (rev v)); [apply rev_involutive|].
  intros c t H. apply (Hlast c (rev t)).
  rewrite <- (rev_involutive v), H. reflexivity.
Qed.

Lemma strip_all_space (s : pystr) : all_space s -> strip s = [].
Proof.
  intros H. unfold strip, rstrip.
  assert (Hl : lstrip s = []).
  { induction H as [|c s Hc _ IH]; simpl; [reflexivity|].
    rewrite Hc. exact IH. }
  rewrite Hl. reflexivity.
Qed.

(** ** Where a completion comes from *)

Section ContentOrigin.

Variable E : env.
Variable headers : list (pystr * pystr).
Variable payload : payload_t.
Variable max_retries : Z.

Lemma try_block_content_inv (attempt : Z) (tr tr' : trace) (v : pystr) :
  try_block E headers payload max_retries attempt tr
    = (Val (Return RetContent v), tr') ->
  from_ok_answer E (EvPost API_URL headers payload 60) v tr'.
Proof.
  unfold try_block, requests_post, from_ok_answer. run_py.
  destruct (network E (tr ++ [EvPost API_URL headers payload 60]))
    as [r|e] eqn:Hnet; [|discriminate].
  unfold response_json, py_in, py_getitem, py_getitem0, py_len, py_strip,
    py_get, dict_has.
  destruct (Z.eqb_spec (status_code r) 200) as [Hstatus|_].
  - repeat (split_match; run_py); intros H; try discriminate H.
    injection H as <- <-. subst.
    eexists tr, r, _, _. repeat split; eauto.
    unfold first_choice_content.
    repeat match goal with
           | H : dict_get _ _ = Some _ |- _ => rewrite H; clear H
           end.
    reflexivity.
  - repeat (split_match; run_py); intros H; discriminate H.
Qed.

Lemma on_exception_not_content (attempt : Z) (e : exn) (tr tr' : trace)
    (v : pystr) :
  on_exception max_retries attempt e tr <> (Val (Return RetContent v), tr').
Proof.
  unfold on_exception.
  destruct (kind e); destruct (attempt <? max_retries - 1); run_py;
    discriminate.
Qed.

Lemma attempt_body_content_inv (attempt : Z) (tr tr' : trace) (v : pystr) :
  attempt_body E headers payload max_retries attempt tr
    = (Val (Return RetContent v), tr') ->
  from_ok_answer E (EvPost API_URL headers payload 60) v tr'.
Proof.
  unfold attempt_body. run_py.
  destruct (try_block E headers payload max_retries attempt tr)
    as [[f|e] t] eqn:Htry.
  - intros H. injection H as -> ->.
    exact (try_block_content_inv _ _ _ _ Htry).
  - intros H. exfalso. exact (on_exception_not_content _ _ _ _ _ H).
Qed.

Lemma for_in_content_inv (xs : list Z) (tr tr' : trace) (v : pystr) :
  for_in xs (attempt_body E headers payload max_retries) tr
    = (Val (Return RetContent v), tr') ->
  from_ok_answer E (EvPost API_URL headers payload 60) v tr'.
Proof.
  revert tr. induction xs as [|x xs IH]; intros tr; simpl; run_py.
  - discriminate.
  - destruct (attempt_body E headers payload max_retries x tr)
      as [[[site v0|]|e] t] eqn:Hbody; try discriminate.
    + intros H. injection H as -> -> ->.
      exact (attempt_body_content_inv _ _ _ _ Hbody).
    + apply IH.
Qed.

End ContentOrigin.

Lemma query_chat_api_inv (E : env) (messages : list message) (model : pystr)
    (max_retries : Z) (temperature : float) (max_tokens : Z)
    (tr tr' : trace) (v : pystr) :
  query_chat_api E messages model max_retries temperature max_tokens tr
    = (Val v, tr') ->
  exists site,
    query_chat_api_at E messages model max_retries temperature max_tokens tr
      = (Val (site, v), tr').
Proof.
  unfold query_chat_api. run_py.
  destruct (query_chat_api_at E messages model max_retries temperature
              max_tokens tr) as [[[site v0]|e] t]; [|discriminate].
  intros H. injection H as <- <-. eauto.
Qed.

Lemma content_site_inv (E : env) (messages : list message) (model : pystr)
    (max_retries : Z) (temperature : float) (max_tokens : Z)
    (tr tr' : trace) (v : pystr) :
  query_chat_api_at E messages model max_retries temperature max_tokens tr
    = (Val (Some RetContent, v), tr') ->
  from_ok_answer E (post_event E messages model temperature max_tokens) v tr'.
Proof.
  unfold query_chat_api_at. run_py.
  destruct (for_in _ _ tr) as [[[site v0|]|e] t] eqn:Hloop;
    try discriminate.
  intros H. injection H as -> -> ->.
  exact (for_in_content_inv _ _ _ _ _ _ _ _ Hloop).
Qed.

(** X1.  A string returned by [query_chat_api] that does not start with
    [Error] is the stripped [choices[0].message.content] of an answer
    with status 200, and that answer is the one to the last POST of the
    call. *)
Theorem result_without_error_prefix_is_a_completion (E : env)
    (messages : list message) (model : pystr) (max_retries : Z)
    (temperature : float) (max_tokens : Z) (tr tr' : trace) (v : pystr) :
  query_chat_api E messages model max_retries temperature max_tokens tr
    = (Val v, tr') ->
  startswith v (lit "Error") = false ->
  from_ok_answer E (post_event E messages model temperature max_tokens) v tr'.
Proof.
  intros Hrun Hprefix.
  destruct (query_chat_api_inv _ _ _ _ _ _ _ _ _ Hrun) as [site Hat].
  destruct (query_chat_api_at_shape E messages model max_retries temperature
              max_tokens tr) as (site' & v' & added & n & Hat' & _ & _ & _ & Hv).
  rewrite Hat in Hat'. injection Hat' as <- <- _.
  destruct Hv as [->|Hv]; [|congruence].
  exact (content_site_inv _ _ _ _ _ _ _ _ _ Hat).
Qed.

Lemma result_without_error_prefix_is_a_completion_witness :
  from_ok_answer
    (sample_env (scripted [status_only 503] (completion (lit " Ten titles "))))
    (post_event
       (sample_env (scripted [status_only 503] (completion (lit " Ten titles "))))
       sample_messages (lit "m") 0.7%float 500)
    (lit "Ten titles")
    (snd (query_chat_api
            (sample_env (scripted [status_only 503]
                           (completion (lit " Ten titles "))))
            sample_messages (lit "m") 3 0.7%float 500 [])).
Proof.
  apply (result_without_error_prefix_is_a_completion
           (sample_env (scripted [status_only 503]
                          (completion (lit " Ten titles "))))
           sample_messages (lit "m") 3 0.7%float 500 []);
    vm_compute; reflexivity.
Defined.

(** X2.  A string returned by [query_chat_api] that does not start with
    [Error] has no whitespace at either end: stripping it again changes
    nothing. *)
Theorem completion_has_no_outer_whitespace (E : env)
    (messages : list message) (model : pystr) (max_retries : Z)
    (temperature : float) (max_tokens : Z) (tr tr' : trace) (v : pystr) :
  query_chat_api E messages model max_retries temperature max_tokens tr
    = (Val v, tr') ->
  startswith v (lit "Error") = false ->
  strip v = v /\
  (forall c t, v = c :: t -> isspace c = false) /\
  (forall c t, v = t ++ [c] -> isspace c = false).
Proof.
  intros Hrun Hprefix.
  destruct (query_chat_api_inv _ _ _ _ _ _ _ _ _ Hrun) as [site Hat].
  destruct (query_chat_api_at_shape E messages model max_retries temperature
              max_tokens tr) as (site' & v' & added & n & Hat' & _ & _ & _ & Hv).
  rewrite Hat in Hat'. injection Hat' as <- <- _.
  destruct Hv as [->|Hv]; [|congruence].
  destruct (content_site_inv _ _ _ _ _ _ _ _ _ Hat)
    as (_ & _ & _ & c & _ & _ & _ & _ & _ & ->).
  split; [apply strip_idempotent|]. apply strip_spec.
Qed.

Lemma completion_has_no_outer_whitespace_witness :
  strip (lit "Ten titles") = lit "Ten titles".
Proof.
  apply (completion_has_no_outer_whitespace
           (sample_env (always (completion (9 :: lit " Ten titles " ++ [10])%N)))
           sample_messages (lit "m") 3 0.7%float 500 []
           [post_event
              (sample_env (always (completion (9 :: lit " Ten titles " ++ [10])%N)))
              sample_messages (lit "m") 0.7%float 500]);
    vm_compute; reflexivity.
Defined.

(** ** The shape of every call *)

Section Rounds.

Variable E : env.
Variable headers : list (pystr * pystr).
Variable payload : payload_t.
Variable max_retries : Z.

Let post : event := EvPost API_URL headers payload 60.

Ltac close_round :=
  split; [lia|];
  lazymatch goal with
  | |- exists reason s,
         [_; EvWarning (?a ++ ?b ++ ?c ++ ?n); EvSleep ?d] = _ /\ _ =>
      exists (a ++ b ++ c), d; split;
      [rewrite <- !app_assoc; reflexivity | tauto]
  | |- exists reason s, [_; EvWarning (?a ++ ?n); EvSleep ?d] = _ /\ _ =>
      exists a, d; split; [reflexivity | tauto]
  end.

Lemma on_exception_round (attempt : Z) (e : exn) (tr : trace) :
  exists f extra,
    on_exception max_retries attempt e tr = (Val f, tr ++ extra) /\
    match f with
    | Return _ _ => extra = []
    | Continue =>
        attempt < max_retries - 1 /\
        retry_round max_retries post attempt (post :: extra)
    end.
Proof.
  unfold on_exception, retry_round.
  destruct (kind e); destruct (Z.ltb_spec attempt (max_retries - 1));
    run_py;
    try (eexists Continue, [_; _]; rewrite <- app_assoc; split;
         [reflexivity | close_round]);
    (eexists (Return _ _), []; rewrite app_nil_r; split; reflexivity).
Qed.

Lemma try_block_round (attempt : Z) (tr : trace) :
  (exists f extra,
      try_block E headers payload max_retries attempt tr
        = (Val f, (tr ++ [post]) ++ extra) /\
      match f with
      | Return _ _ => extra = []
      | Continue =>
          attempt < max_retries - 1 /\
          retry_round max_retries post attempt (post :: extra)
      end) \/
  (exists e,
      try_block E headers payload max_retries attempt tr
        = (Exc e, tr ++ [post])).
Proof.
  unfold try_block, requests_post, retry_round. run_py. fold post.
  destruct (network E (tr ++ [post])) as [r|e]; [|right; eauto].
  unfold response_json, py_in, py_getitem, py_getitem0, py_len, py_strip,
    py_get.
  repeat (split_match; run_py);
    try (right; eexists; reflexivity);
    left;
    try (eexists Continue, [_; _]; rewrite <- app_assoc; split;
         [reflexivity | close_round]);
    (eexists (Return _ _), []; rewrite app_nil_r; split; reflexivity).
Qed.

Lemma attempt_body_round (attempt : Z) (tr : trace) :
  exists f extra,
    attempt_body E headers payload max_retries attempt tr
      = (Val f, (tr ++ [post]) ++ extra) /\
    match f with
    | Return _ _ => extra = []
    | Continue =>
        attempt < max_retries - 1 /\
        retry_round max_retries post attempt (post :: extra)
    end.
Proof.
  unfold attempt_body. run_py.
  destruct (try_block_round attempt tr) as [(f & extra & H & Hf)|(e & H)];
    rewrite H.
  - eauto.
  - apply on_exception_round.
Qed.

(** The loop from attempt [a] on, for [m] attempts. *)
Lemma for_in_rounds (m a : nat) (tr : trace) :
  exists f rounds,
    for_in (map Z.of_nat (seq a m))
      (attempt_body E headers payload max_retries) tr
      = (Val f,
         tr ++ List.concat rounds ++
         match f with Return _ _ => [post] | Continue => [] end) /\
    retry_rounds max_retries post (Z.of_nat a) rounds /\
    match f with
    | Return _ _ => (List.length rounds < m)%nat
    | Continue =>
        List.length rounds = m /\
        Forall (fun x => x < max_retries - 1) (map Z.of_nat (seq a m))
    end.
Proof.
  revert a tr. induction m as [|m IH]; intros a tr.
  - exists Continue, []. simpl. run_py. rewrite app_nil_r. auto.
  - destruct (attempt_body_round (Z.of_nat a) tr) as (f & extra & Hrun & Hf).
    simpl. run_py. rewrite Hrun. destruct f as [site v|].
    + subst extra. exists (Return site v), []. simpl.
      rewrite app_nil_r. repeat split; auto. lia.
    + destruct Hf as [Hlt Hround].
      destruct (IH (S a) ((tr ++ [post]) ++ extra))
        as (f' & rounds & Hrest & Hrounds & Hf').
      exists f', ((post :: extra) :: rounds). rewrite Hrest.
      split; [|split].
      * f_equal. simpl. rewrite <- !app_assoc. reflexivity.
      * simpl. split; [exact Hround|].
        replace (Z.of_nat a + 1) with (Z.of_nat (S a)) by lia. exact Hrounds.
      * destruct f'; simpl; [lia|].
        destruct Hf' as [-> Hall]. split; [reflexivity|].
        constructor; assumption.
Qed.

End Rounds.

Lemma retry_rounds_counts (max_retries : Z) (post : event) (p : is_post post = true)
    (rounds : list trace) (a : Z) :
  retry_rounds max_retries post a rounds ->
  List.length (posts (List.concat rounds)) = List.length rounds /\
  List.length (sleeps (List.concat rounds)) = List.length rounds /\
  List.length (warnings (List.concat rounds)) = List.length rounds.
Proof.
  revert a. induction rounds as [|r rounds IH]; intros a; simpl; [auto|].
  intros [(reason & s & -> & _) Hrest].
  destruct (IH _ Hrest) as (Hp & Hs & Hw).
  destruct post; try discriminate p. simpl.
  unfold posts in *. rewrite Hp, Hs, Hw. auto.
Qed.

Lemma warnings_app (a b : trace) : warnings (a ++ b) = warnings a ++ warnings b.
Proof.
  induction a as [|[ | |] a IH]; simpl; auto. rewrite IH. reflexivity.
Qed.

(** The sleep of round [i] is at most [max 5 (3 * (i + 1))]. *)
Lemma retry_rounds_sleeps (max_retries : Z) (post : event)
    (p : is_post post = true) (rounds : list trace) (a : Z) :
  0 <= a ->
  retry_rounds max_retries post a rounds ->
  Forall (fun s => 2 <= s <= Z.max 5 (3 * (a + Z.of_nat (List.length rounds))))
         (sleeps (List.concat rounds)).
Proof.
  revert a. induction rounds as [|r rounds IH]; intros a Ha Hr;
    [constructor|].
  simpl in Hr. destruct Hr as [(reason & s & -> & Hs) Hrest].
  change (List.length ([post; EvWarning (reason ++ attempt_note a max_retries);
                        EvSleep s] :: rounds))
    with (S (List.length rounds)).
  rewrite Nat2Z.inj_succ.
  destruct post; try discriminate p. cbn [List.concat sleeps app].
  constructor; [lia|].
  specialize (IH (a + 1) ltac:(lia) Hrest).
  eapply Forall_impl; [|exact IH]. cbv beta. intros x Hx. lia.
Qed.

Lemma query_chat_api_at_rounds (E : env) (messages : list message)
    (model : pystr) (max_retries : Z) (temperature : float) (max_tokens : Z)
    (tr : trace) :
  exists site v rounds,
    query_chat_api_at E messages model max_retries temperature max_tokens tr
      = (Val (site, v),
         tr ++ List.concat rounds ++
         match site with
         | Some _ => [post_event E messages model temperature max_tokens]
         | None => []
         end) /\
    retry_rounds max_retries
      (post_event E messages model temperature max_tokens) 0 rounds /\
    match site with
    | Some _ => (List.length rounds < Z.to_nat max_retries)%nat
    | None => max_retries <= 0
    end.
Proof.
  destruct (for_in_rounds E (build_headers E)
              (build_payload messages model temperature max_tokens)
              max_retries (Z.to_nat max_retries) 0 tr)
    as (f & rounds & Hrun & Hrounds & Hf).
  fold (range max_retries) in Hrun, Hf.
  unfold query_chat_api_at. run_py. rewrite Hrun.
  destruct f as [site v|].
  - exists (Some site), v, rounds. auto.
  - exists None, (lit "Error: All retry attempts failed."), rounds.
    repeat split; auto.
    destruct Hf as [_ Hall].
    destruct (Z.le_gt_cases max_retries 0) as [|Hpos]; [assumption|].
    exfalso.
    assert (Hin : In (max_retries - 1) (range max_retries)).
    { unfold range. apply in_map_iff. exists (Z.to_nat (max_retries - 1)).
      split; [lia|]. apply in_seq. lia. }
    rewrite Forall_forall in Hall. specialize (Hall _ Hin). lia.
Qed.

(** X3.  For [max_retries >= 1] the events of a call are, in order,
    fewer than [max_retries] retries and one last POST; the retry of
    attempt [i] is the POST, one warning that ends with
    ["(Attempt i+1/max_retries)"] and one sleep of [(i+1)*3], 5, 3 or 2
    seconds. *)
Theorem call_is_retries_then_a_post (E : env) (messages : list message)
    (model : pystr) (max_retries : Z) (temperature : float) (max_tokens : Z)
    (tr : trace) :
  1 <= max_retries ->
  exists v rounds,
    query_chat_api E messages model max_retries temperature max_tokens tr
      = (Val v,
         tr ++ List.concat rounds ++
         [post_event E messages model temperature max_tokens]) /\
    Z.of_nat (List.length rounds) < max_retries /\
    retry_rounds max_retries
      (post_event E messages model temperature max_tokens) 0 rounds.
Proof.
  intros Hmax.
  destruct (query_chat_api_at_rounds E messages model max_retries temperature
              max_tokens tr) as (site & v & rounds & Hrun & Hrounds & Hsite).
  destruct site as [site|]; [|lia].
  exists v, rounds. split; [|split; [lia | exact Hrounds]].
  exact (query_chat_api_value _ _ _ _ _ _ _ _ _ _ Hrun).
Qed.

Lemma call_is_retries_then_a_post_witness :
  exists v rounds,
    query_chat_api (sample_env (always (status_only 503)))
      sample_messages (lit "m") 2 0.7%float 500 []
      = (Val v,
         [] ++ List.concat rounds ++
         [post_event (sample_env (always (status_only 503)))
            sample_messages (lit "m") 0.7%float 500]) /\
    Z.of_nat (List.length rounds) < 2.
Proof.
  destruct (call_is_retries_then_a_post (sample_env (always (status_only 503)))
              sample_messages (lit "m") 2 0.7%float 500 [])
    as (v & rounds & Hrun & Hlen & _); [lia|].
  exists v, rounds. split; assumption.
Defined.

Lemma posts_app (a b : trace) : posts (a ++ b) = posts a ++ posts b.
Proof. apply filter_app. Qed.

(** X4.  For [max_retries >= 1] a call sends between 1 and
    [max_retries] POSTs, sleeps once less than it posts, warns as often
    as it sleeps, and no sleep is shorter than 2 seconds or longer than
    [max 5 (3 * (max_retries - 1))]. *)
Theorem call_effort_is_bounded (E : env) (messages : list message)
    (model : pystr) (max_retries : Z) (temperature : float) (max_tokens : Z)
    (tr : trace) :
  1 <= max_retries ->
  exists v added,
    query_chat_api E messages model max_retries temperature max_tokens tr
      = (Val v, tr ++ added) /\
    (1 <= List.length (posts added) <= Z.to_nat max_retries)%nat /\
    S (List.length (sleeps added)) = List.length (posts added) /\
    List.length (warnings added) = List.length (sleeps added) /\
    Forall (fun s => 2 <= s <= Z.max 5 (3 * (max_retries - 1)))
           (sleeps added).
Proof.
  intros Hmax.
  destruct (query_chat_api_at_rounds E messages model max_retries temperature
              max_tokens tr) as (site & v & rounds & Hrun & Hrounds & Hsite).
  destruct site as [site|]; [|lia].
  destruct (retry_rounds_counts max_retries
              (post_event E messages model temperature max_tokens) eq_refl
              _ _ Hrounds) as (Hp & Hs & Hw).
  pose proof (retry_rounds_sleeps max_retries
                (post_event E messages model temperature max_tokens) eq_refl
                _ _ (Z.le_refl 0) Hrounds) as Hbound.
  eexists v, _. split; [exact (query_chat_api_value _ _ _ _ _ _ _ _ _ _ Hrun)|].
  rewrite posts_app, sleeps_app, warnings_app, !length_app, Hp, Hs, Hw.
  set (bound := Z.max 5 (3 * (max_retries - 1))).
  simpl. rewrite app_nil_r. unfold trace in *.
  repeat split; try lia.
  eapply Forall_impl; [|exact Hbound]. cbv beta. intros x Hx.
  subst bound. lia.
Qed.

Lemma call_effort_is_bounded_witness :
  exists v added,
    query_chat_api (sample_env (always_raises KConnectionError (lit "refused")))
      sample_messages (lit "m") 4 0.7%float 500 []
      = (Val v, added) /\
    (List.length (posts added) <= 4)%nat /\
    Forall (fun s => 2 <= s <= 9) (sleeps added).
Proof.
  destruct (call_effort_is_bounded
              (sample_env (always_raises KConnectionError (lit "refused")))
              sample_messages (lit "m") 4 0.7%float 500 [])
    as (v & added & Hrun & [_ Hposts] & _ & _ & Hsleeps); [lia|].
  exists v, added. split; [exact Hrun|]. split; [exact Hposts | exact Hsleeps].
Defined.

(** X5.  Both call sites use the default of three attempts: whatever
    the service does, [generate_titles] and [generate_blog_content]
    send at most 3 POSTs and sleep at most 11 seconds in all. *)
Theorem call_sites_post_thrice_at_most (E : env) (topic title keywords : pystr)
    (blog_length : Z) (model : pystr) (tr : trace) :
  (exists v added,
     generate_titles E topic model tr = (Val v, tr ++ added) /\
     (1 <= List.length (posts added) <= 3)%nat /\
     0 <= total_sleep added <= 11) /\
  (exists v added,
     generate_blog_content E title keywords blog_length model tr
       = (Val v, tr ++ added) /\
     (1 <= List.length (posts added) <= 3)%nat /\
     0 <= total_sleep added <= 11).
Proof.
  assert (Hgen : forall messages temperature max_tokens,
    exists v added,
      query_chat_api E messages model default_max_retries temperature
        max_tokens tr = (Val v, tr ++ added) /\
      (1 <= List.length (posts added) <= 3)%nat /\
      0 <= total_sleep added <= 11).
  { intros messages temperature max_tokens.
    destruct (query_chat_api_at_rounds E messages model default_max_retries
                temperature max_tokens tr)
      as (site & v & rounds & Hrun & Hrounds & Hsite).
    unfold default_max_retries in *.
    destruct site as [site|]; [|lia].
    eexists v, _.
    split; [exact (query_chat_api_value _ _ _ _ _ _ _ _ _ _ Hrun)|].
    unfold total_sleep. rewrite posts_app, sleeps_app.
    destruct rounds as [|r0 [|r1 [|r2 rounds]]]; simpl in Hsite; try lia;
      simpl in Hrounds;
      repeat match goal with
             | H : _ /\ _ |- _ => destruct H
             | H : retry_round _ _ _ _ |- _ =>
                 destruct H as (? & ? & -> & ?)
             end;
      simpl; lia. }
  split; apply Hgen.
Qed.

(** ** Retries *)

Section Retries.

Variable E : env.
Variable messages : list message.
Variable model : pystr.
Variable max_retries : Z.
Variable temperature : float.
Variable max_tokens : Z.

Let post : event := post_event E messages model temperature max_tokens.
Let body : Z -> Py flow :=
  attempt_body E (build_headers E)
    (build_payload messages model temperature max_tokens) max_retries.

Ltac answer H :=
  unfold body, attempt_body, try_block, requests_post; run_py;
  fold post; unfold post_event in H; rewrite H.

Lemma answer_503_retry (attempt : Z) (tr : trace) (r : response_t) :
  network E (tr ++ [post]) = Responded r ->
  status_code r = 503 ->
  attempt < max_retries - 1 ->
  body attempt tr =
    (Val Continue,
     tr ++ [post;
            EvWarning (lit "Model is loading... Retrying in 5 seconds " ++
                       attempt_note attempt max_retries);
            EvSleep 5]).
Proof.
  intros Hnet Hstatus Hlt. unfold post in Hnet. answer Hnet.
  rewrite Hstatus. simpl.
  apply Z.ltb_lt in Hlt. rewrite Hlt. run_py.
  rewrite <- !app_assoc. reflexivity.
Qed.

Lemma answer_raise_retry (attempt : Z) (tr : trace) (e : exn) :
  network E (tr ++ [post]) = Raised e ->
  attempt < max_retries - 1 ->
  body attempt tr =
    (Val Continue,
     tr ++ [post;
            EvWarning
              (match kind e with
               | KTimeout => lit "Request timed out. Retrying... "
               | KConnectionError => lit "Connection error. Retrying... "
               | KOther => lit "Unexpected error: " ++ exn_str e ++
                           lit ". Retrying... "
               end ++ attempt_note attempt max_retries);
            EvSleep (match kind e with KOther => 2 | _ => 3 end)]).
Proof.
  intros Hnet Hlt. unfold post in Hnet. answer Hnet.
  apply Z.ltb_lt in Hlt. unfold on_exception.
  destruct (kind e); rewrite Hlt; run_py; rewrite <- !app_assoc;
    reflexivity.
Qed.

Lemma answer_retry (attempt : Z) (tr : trace) (msg : pystr) :
  retryable (network E (tr ++ [post])) msg ->
  attempt < max_retries - 1 ->
  exists m s,
    body attempt tr = (Val Continue, tr ++ [post; EvWarning m; EvSleep s]).
Proof.
  intros Hretry Hlt.
  inversion Hretry as [r Hs Hnet|r Hs Hnet|e Hk Hnet|e Hk Hnet|e Hk Hnet];
    symmetry in Hnet.
  - eexists _, _.
    exact (answer_429_retry E _ _ max_retries attempt tr r Hnet Hs Hlt).
  - eexists _, _. exact (answer_503_retry attempt tr r Hnet Hs Hlt).
  - eexists _, _. exact (answer_raise_retry attempt tr e Hnet Hlt).
  - eexists _, _. exact (answer_raise_retry attempt tr e Hnet Hlt).
  - eexists _, _. exact (answer_raise_retry attempt tr e Hnet Hlt).
Qed.

Lemma answer_decisive (attempt : Z) (tr : trace) (msg : pystr) :
  decisive E (network E (tr ++ [post])) msg ->
  exists site, body attempt tr = (Val (Return site msg), tr ++ [post]).
Proof.
  intros Hd.
  inversion Hd as [r parsed c Hs Hb Hc Hnet|r parsed Hs Hb Hc Hnet
                  |r Hs Hnet|r d Hs Hb Hnet]; symmetry in Hnet.
  - eexists. eapply answer_content; eauto.
  - eexists. eapply answer_no_choices; eauto.
  - eexists. eapply answer_401; eauto.
  - eexists. apply answer_other_status; assumption.
Qed.

(** Attempts that all go the same way: attempt [i] warns [warn i] and
    sleeps [wait i], the last one returns [msg]. *)
Lemma uniform_retries (warn : Z -> pystr) (wait : Z -> Z) (msg : pystr) :
  1 <= max_retries ->
  (forall i tr, 0 <= i < max_retries - 1 ->
     body i tr = (Val Continue,
                  tr ++ [post; EvWarning (warn i); EvSleep (wait i)])) ->
  (forall tr, exists site,
     body (max_retries - 1) tr = (Val (Return site msg), tr ++ [post])) ->
  forall tr, exists added,
    query_chat_api E messages model max_retries temperature max_tokens tr
      = (Val msg, tr ++ added) /\
    List.length (posts added) = Z.to_nat max_retries /\
    sleeps added = map wait (range (max_retries - 1)) /\
    warnings added = map warn (range (max_retries - 1)).
Proof.
  intros Hmax Hretry Hlast tr.
  set (round := fun i => [post; EvWarning (warn i); EvSleep (wait i)]).
  assert (Hprefix : forall n, Z.of_nat n <= max_retries - 1 ->
            for_in (range (Z.of_nat n)) body tr
              = (Val Continue, tr ++ flat_map round (range (Z.of_nat n)))).
  { induction n as [|n IH]; intros Hn.
    - simpl. run_py. rewrite app_nil_r. reflexivity.
    - rewrite range_succ, for_in_app, IH, flat_map_app by lia.
      simpl. run_py. rewrite Hretry by lia.
      rewrite <- app_assoc. reflexivity. }
  specialize (Hprefix (Z.to_nat (max_retries - 1))).
  rewrite Z2Nat.id in Hprefix by lia. specialize (Hprefix (Z.le_refl _)).
  set (xs := range (max_retries - 1)) in *.
  destruct (Hlast (tr ++ flat_map round xs)) as [site Hend].
  exists (flat_map round xs ++ [post]).
  assert (Hcount : forall l, List.length (posts (flat_map round l)) = List.length l
                     /\ sleeps (flat_map round l) = map wait l
                     /\ warnings (flat_map round l) = map warn l).
  { induction l as [|x l (IH1 & IH2 & IH3)]; [auto|].
    cbn [flat_map List.length map].
    rewrite posts_app, sleeps_app, warnings_app, length_app, IH1, IH2, IH3.
    auto. }
  destruct (Hcount xs) as (Hp & Hs & Hw).
  split; [|split; [|split]].
  - apply query_chat_api_value with (site := Some site).
    apply call_returns_at with (k := max_retries - 1)
                               (tr := tr ++ flat_map round xs);
      [lia | exact Hprefix |].
    fold body. rewrite Hend, <- app_assoc. reflexivity.
  - rewrite posts_app, length_app, Hp. unfold xs, range.
    rewrite length_map, length_seq. simpl. lia.
  - rewrite sleeps_app, Hs. simpl. apply app_nil_r.
  - rewrite warnings_app, Hw. simpl. apply app_nil_r.
Qed.

(** As long as the service gives retryable answers and attempts are
    left, the loop goes on: one POST and one sleep per answer. *)
Lemma retried_prefix (k : nat) (tr : trace) :
  Z.of_nat k <= max_retries - 1 ->
  (forall h,
     (List.length (posts tr) < List.length (posts h)
      <= List.length (posts tr) + k)%nat ->
     exists msg, retryable (network E h) msg) ->
  exists added,
    for_in (range (Z.of_nat k)) body tr = (Val Continue, tr ++ added) /\
    List.length (posts added) = k /\
    List.length (sleeps added) = k.
Proof.
  induction k as [|k IH]; intros Hk Hnet.
  - exists []. simpl. run_py. rewrite app_nil_r. auto.
  - destruct IH as (added & Hrun & Hp & Hs); [lia | |].
    { intros h Hh. apply Hnet. lia. }
    destruct (Hnet ((tr ++ added) ++ [post])) as [msg Hmsg].
    { rewrite !posts_app, !length_app, Hp. simpl. lia. }
    destruct (answer_retry (Z.of_nat k) (tr ++ added) msg Hmsg) as (m & s & Hgo);
      [lia|].
    exists (added ++ [post; EvWarning m; EvSleep s]).
    rewrite range_succ, for_in_app, Hrun. simpl. run_py. fold body.
    rewrite Hgo, <- app_assoc.
    rewrite posts_app, sleeps_app, !length_app, Hp, Hs. simpl.
    repeat split; lia.
Qed.

End Retries.

Lemma map_const_range {A} (c : A) (n : Z) :
  map (fun _ => c) (range n) = repeat c (Z.to_nat n).
Proof.
  rewrite map_const. unfold range. rewrite length_map, length_seq.
  reflexivity.
Qed.

(** X6.  For [max_retries >= 1], if every attempt is answered with
    status 503 the call returns the model-unavailable message after
    exactly [max_retries] POSTs, with a sleep of 5 seconds and a warning
    with the attempt count after each attempt but the last. *)
Theorem unavailable_backoff (E : env) (messages : list message)
    (model : pystr) (max_retries : Z) (temperature : float) (max_tokens : Z)
    (tr : trace) :
  1 <= max_retries ->
  (forall h, exists r, network E h = Responded r /\ status_code r = 503) ->
  exists added,
    query_chat_api E messages model max_retries temperature max_tokens tr
      = (Val (lit "Error: Model is currently unavailable. Try a different model."),
         tr ++ added) /\
    List.length (posts added) = Z.to_nat max_retries /\
    sleeps added = repeat 5 (Z.to_nat (max_retries - 1)) /\
    warnings added =
      map (fun i => lit "Model is loading... Retrying in 5 seconds " ++
                    attempt_note i max_retries)
          (range (max_retries - 1)).
Proof.
  intros Hmax H503.
  rewrite <- map_const_range.
  apply uniform_retries; [assumption | |].
  - intros i h Hi.
    destruct (H503 (h ++ [post_event E messages model temperature max_tokens]))
      as (r & Hnet & Hs).
    apply (answer_503_retry E _ _ _ _ _ i h r Hnet Hs). lia.
  - intros h. apply answer_last; [|lia].
    destruct (H503 (h ++ [post_event E messages model temperature max_tokens]))
      as (r & Hnet & Hs).
    unfold post_event in Hnet. rewrite Hnet. constructor. exact Hs.
Qed.

Lemma unavailable_backoff_witness :
  exists added,
    query_chat_api (sample_env (always (status_only 503)))
      sample_messages (lit "m") 3 0.7%float 500 []
      = (Val (lit "Error: Model is currently unavailable. Try a different model."),
         added) /\
    sleeps added = [5; 5] /\
    warnings added =
      [lit "Model is loading... Retrying in 5 seconds (Attempt 1/3)";
       lit "Model is loading... Retrying in 5 seconds (Attempt 2/3)"].
Proof.
  destruct (unavailable_backoff (sample_env (always (status_only 503)))
              sample_messages (lit "m") 3 0.7%float 500 [])
    as (added & Hrun & _ & Hsleeps & Hwarn).
  - lia.
  - intros h. eexists. split; reflexivity.
  - exists added. split; [exact Hrun|]. split; [exact Hsleeps | exact Hwarn].
Defined.

(** X7.  For [max_retries >= 1], if every POST times out the call
    returns the timed-out message after exactly [max_retries] POSTs,
    with a sleep of 3 seconds after each attempt but the last. *)
Theorem timeout_backoff (E : env) (messages : list message)
    (model : pystr) (max_retries : Z) (temperature : float) (max_tokens : Z)
    (tr : trace) :
  1 <= max_retries ->
  (forall h, exists e, network E h = Raised e /\ kind e = KTimeout) ->
  exists added,
    query_chat_api E messages model max_retries temperature max_tokens tr
      = (Val (lit "Error: Request timed out after multiple attempts."),
         tr ++ added) /\
    List.length (posts added) = Z.to_nat max_retries /\
    sleeps added = repeat 3 (Z.to_nat (max_retries - 1)) /\
    warnings added =
      map (fun i => lit "Request timed out. Retrying... " ++
                    attempt_note i max_retries)
          (range (max_retries - 1)).
Proof.
  intros Hmax Hnet.
  rewrite <- map_const_range.
  apply uniform_retries; [assumption | |].
  - intros i h Hi.
    destruct (Hnet (h ++ [post_event E messages model temperature max_tokens]))
      as (e & He & Hk).
    rewrite (answer_raise_retry E _ _ _ _ _ i h e He) by lia.
    rewrite Hk. reflexivity.
  - intros h. apply answer_last; [|lia].
    destruct (Hnet (h ++ [post_event E messages model temperature max_tokens]))
      as (e & He & Hk).
    unfold post_event in He. rewrite He. constructor. exact Hk.
Qed.

Lemma timeout_backoff_witness :
  exists added,
    query_chat_api (sample_env (always_raises KTimeout (lit "Read timed out.")))
      sample_messages (lit "m") 3 0.7%float 500 []
      = (Val (lit "Error: Request timed out after multiple attempts."), added) /\
    List.length (posts added) = 3%nat /\
    sleeps added = [3; 3].
Proof.
  destruct (timeout_backoff
              (sample_env (always_raises KTimeout (lit "Read timed out.")))
              sample_messages (lit "m") 3 0.7%float 500 [])
    as (added & Hrun & Hposts & Hsleeps & _).
  - lia.
  - intros h. eexists. split; reflexivity.
  - exists added. split; [exact Hrun|]. split; [exact Hposts | exact Hsleeps].
Defined.

(** X8.  For [max_retries >= 1], if every POST fails to connect the
    call returns the could-not-connect message after exactly
    [max_retries] POSTs, with a sleep of 3 seconds after each attempt
    but the last. *)
Theorem connection_backoff (E : env) (messages : list message)
    (model : pystr) (max_retries : Z) (temperature : float) (max_tokens : Z)
    (tr : trace) :
  1 <= max_retries ->
  (forall h, exists e, network E h = Raised e /\ kind e = KConnectionError) ->
  exists added,
    query_chat_api E messages model max_retries temperature max_tokens tr
      = (Val (lit "Error: Could not connect to Hugging Face API. Check your internet connection."),
         tr ++ added) /\
    List.length (posts added) = Z.to_nat max_retries /\
    sleeps added = repeat 3 (Z.to_nat (max_retries - 1)) /\
    warnings added =
      map (fun i => lit "Connection error. Retrying... " ++
                    attempt_note i max_retries)
          (range (max_retries - 1)).
Proof.
  intros Hmax Hnet.
  rewrite <- map_const_range.
  apply uniform_retries; [assumption | |].
  - intros i h Hi.
    destruct (Hnet (h ++ [post_event E messages model temperature max_tokens]))
      as (e & He & Hk).
    rewrite (answer_raise_retry E _ _ _ _ _ i h e He) by lia.
    rewrite Hk. reflexivity.
  - intros h. apply answer_last; [|lia].
    destruct (Hnet (h ++ [post_event E messages model temperature max_tokens]))
      as (e & He & Hk).
    unfold post_event in He. rewrite He. constructor. exact Hk.
Qed.

Lemma connection_backoff_witness :
  exists added,
    query_chat_api
      (sample_env (always_raises KConnectionError (lit "Connection refused")))
      sample_messages (lit "m") 2 0.7%float 500 []
      = (Val (lit "Error: Could not connect to Hugging Face API. Check your internet connection."),
         added) /\
    List.length (posts added) = 2%nat /\
    sleeps added = [3].
Proof.
  destruct (connection_backoff
              (sample_env (always_raises KConnectionError
                             (lit "Connection refused")))
              sample_messages (lit "m") 2 0.7%float 500 [])
    as (added & Hrun & Hposts & Hsleeps & _).
  - lia.
  - intros h. eexists. split; reflexivity.
  - exists added. split; [exact Hrun|]. split; [exact Hposts | exact Hsleeps].
Defined.

(** X9.  For [max_retries >= 1], if every POST raises an exception that
    is neither a timeout nor a connection error, with [str(e)] equal to
    [text], the call returns ["Error: " + text] after exactly
    [max_retries] POSTs, with a sleep of 2 seconds after each attempt
    but the last and warnings that quote [text]. *)
Theorem unexpected_error_backoff (E : env) (messages : list message)
    (model : pystr) (max_retries : Z) (temperature : float) (max_tokens : Z)
    (tr : trace) (text : pystr) :
  1 <= max_retries ->
  (forall h, exists e,
     network E h = Raised e /\ kind e = KOther /\ exn_str e = text) ->
  exists added,
    query_chat_api E messages model max_retries temperature max_tokens tr
      = (Val (lit "Error: " ++ text), tr ++ added) /\
    List.length (posts added) = Z.to_nat max_retries /\
    sleeps added = repeat 2 (Z.to_nat (max_retries - 1)) /\
    warnings added =
      map (fun i => lit "Unexpected error: " ++ text ++
                    lit ". Retrying... " ++ attempt_note i max_retries)
          (range (max_retries - 1)).
Proof.
  intros Hmax Hnet.
  rewrite <- map_const_range.
  apply uniform_retries; [assumption | |].
  - intros i h Hi.
    destruct (Hnet (h ++ [post_event E messages model temperature max_tokens]))
      as (e & He & Hk & Ht).
    rewrite (answer_raise_retry E _ _ _ _ _ i h e He) by lia.
    rewrite Hk, Ht, <- !app_assoc. reflexivity.
  - intros h. apply answer_last; [|lia].
    destruct (Hnet (h ++ [post_event E messages model temperature max_tokens]))
      as (e & He & Hk & Ht).
    unfold post_event in He. rewrite He, <- Ht. constructor. exact Hk.
Qed.

Lemma unexpected_error_backoff_witness :
  exists added,
    query_chat_api (sample_env (always_raises KOther (lit "boom")))
      sample_messages (lit "m") 3 0.7%float 500 []
      = (Val (lit "Error: boom"), added) /\
    sleeps added = [2; 2] /\
    warnings added =
      [lit "Unexpected error: boom. Retrying... (Attempt 1/3)";
       lit "Unexpected error: boom. Retrying... (Attempt 2/3)"].
Proof.
  destruct (unexpected_error_backoff
              (sample_env (always_raises KOther (lit "boom")))
              sample_messages (lit "m") 3 0.7%float 500 [] (lit "boom"))
    as (added & Hrun & _ & Hsleeps & Hwarn).
  - lia.
  - intros h. eexists. repeat split; reflexivity.
  - exists added. split; [exact Hrun|]. split; [exact Hsleeps | exact Hwarn].
Defined.

(** X10.  If the first [k] answers of a call are retryable, with
    [k < max_retries], and the next answer is a completion, a body
    without choices, a 401, or another status with a JSON object as
    body, the call returns the string of that answer after [k + 1]
    POSTs and [k] sleeps. *)
Theorem retries_then_decisive_answer (E : env) (messages : list message)
    (model : pystr) (max_retries : Z) (temperature : float) (max_tokens : Z)
    (tr : trace) (k : nat) (a : post_result) (msg : pystr) :
  Z.of_nat k < max_retries ->
  (forall h,
     (List.length (posts tr) < List.length (posts h)
      <= List.length (posts tr) + k)%nat ->
     exists m, retryable (network E h) m) ->
  (forall h,
     List.length (posts h) = (List.length (posts tr) + k + 1)%nat ->
     network E h = a) ->
  decisive E a msg ->
  exists added,
    query_chat_api E messages model max_retries temperature max_tokens tr
      = (Val msg, tr ++ added) /\
    List.length (posts added) = S k /\
    List.length (sleeps added) = k.
Proof.
  intros Hk Hretry Hnext Hmsg.
  destruct (retried_prefix E messages model max_retries temperature max_tokens
              k tr) as (added & Hrun & Hp & Hs); [lia | exact Hretry |].
  assert (Ha : network E ((tr ++ added) ++
                 [post_event E messages model temperature max_tokens]) = a).
  { apply Hnext. rewrite !posts_app, !length_app, Hp. simpl. lia. }
  destruct (answer_decisive E messages model max_retries temperature
              max_tokens (Z.of_nat k) (tr ++ added) msg) as [site Hend].
  { rewrite Ha. exact Hmsg. }
  exists (added ++ [post_event E messages model temperature max_tokens]).
  split; [|split].
  - apply query_chat_api_value with (site := Some site).
    apply call_returns_at with (k := Z.of_nat k) (tr := tr ++ added);
      [lia | exact Hrun |].
    rewrite Hend, <- app_assoc. reflexivity.
  - rewrite posts_app, length_app, Hp. simpl. lia.
  - rewrite sleeps_app, length_app, Hs. simpl. lia.
Qed.

(** A timeout, a 503, then the completion, with the default three
    attempts. *)
Lemma retries_then_decisive_answer_witness :
  exists added,
    query_chat_api
      (sample_env (scripted [Raised {| kind := KTimeout; exn_str := [] |};
                             status_only 503]
                     (completion (lit "Done. "))))
      sample_messages (lit "m") 3 0.7%float 500 []
      = (Val (lit "Done."), added) /\
    List.length (posts added) = 3%nat /\
    List.length (sleeps added) = 2%nat.
Proof.
  destruct (retries_then_decisive_answer
              (sample_env (scripted [Raised {| kind := KTimeout; exn_str := [] |};
                                     status_only 503]
                             (completion (lit "Done. "))))
              sample_messages (lit "m") 3 0.7%float 500 [] 2
              (completion (lit "Done. ")) (strip (lit "Done. ")))
    as (added & Hrun & Hp & Hs).
  - lia.
  - intros h Hh. simpl in Hh. unfold sample_env, scripted, network.
    destruct (List.length (posts h)) as [|[|[|n]]]; try lia; simpl.
    + eexists. apply retry_timeout. reflexivity.
    + eexists. apply retry_unavailable. reflexivity.
  - intros h Hh. simpl in Hh. unfold sample_env, scripted, network.
    rewrite Hh. reflexivity.
  - eapply decisive_content; reflexivity.
  - exists added. split; [exact Hrun|]. split; [exact Hp | exact Hs].
Defined.

(** X11.  With [max_retries <= 0] the call sends nothing: it returns
    ["Error: All retry attempts failed."] and leaves the trace as it
    was. *)
Theorem no_attempt_without_retries (E : env) (messages : list message)
    (model : pystr) (max_retries : Z) (temperature : float) (max_tokens : Z)
    (tr : trace) :
  max_retries <= 0 ->
  query_chat_api E messages model max_retries temperature max_tokens tr
    = (Val (lit "Error: All retry attempts failed."), tr).
Proof.
  intros H.
  apply query_chat_api_value with (site := None).
  unfold query_chat_api_at. rewrite (range_nonpos _ H). reflexivity.
Qed.

Lemma no_attempt_without_retries_witness :
  query_chat_api (sample_env (always (completion (lit "never asked"))))
    sample_messages (lit "m") 0 0.7%float 500 []
    = (Val (lit "Error: All retry attempts failed."), []).
Proof.
  apply (no_attempt_without_retries
           (sample_env (always (completion (lit "never asked"))))
           sample_messages (lit "m") 0 0.7%float 500 []).
  lia.
Defined.

(** X12.  [generate_titles] sends at least one and at most three POSTs,
    each with temperature 0.8, [max_tokens] 400, [stream] false and two
    messages: a system message that asks for exactly 10 numbered titles
    and does not depend on the topic, and a user message that quotes
    the topic. *)
Theorem titles_request (E : env) (topic model : pystr) (tr : trace) :
  exists v added n,
    generate_titles E topic model tr = (Val v, tr ++ added) /\
    (1 <= n <= 3)%nat /\
    posted added =
      repeat
        {| p_messages :=
             [ {| role := lit "system";
                  content := lit "You are a creative blog title generator. Generate exactly 10 numbered blog titles, one per line." |};
               {| role := lit "user";
                  content :=
                    lit "Generate 10 creative, attention-grabbing blog post titles about '" ++
                    topic ++
                    lit "'. Target audience: beginners and tech enthusiasts. Format: numbered list 1-10, no explanations." |} ];
           p_model := model;
           p_temperature := 0.8%float;
           p_max_tokens := 400;
           p_stream := false |} n.
Proof.
  unfold generate_titles.
  destruct (query_chat_api_at_shape E (titles_messages topic) model
              default_max_retries 0.8%float 400 tr)
    as (site & v & added & n & Hrun & Hposts & Hn & Hone & _).
  apply posted_repeat in Hposts.
  exists v, added, n.
  split; [exact (query_chat_api_value _ _ _ _ _ _ _ _ _ _ Hrun)|].
  split; [unfold default_max_retries in *; simpl in Hn; lia|].
  exact Hposts.
Qed.

(** ** The script *)

Lemma str_in_In (x : pystr) (xs : list pystr) :
  str_in x xs = true <-> In x xs.
Proof.
  unfold str_in. rewrite existsb_exists. split.
  - intros (y & Hy & Heq). apply str_eqb_eq in Heq. subst. exact Hy.
  - intros H. exists x. split; [exact H | apply str_eqb_refl].
Qed.

Lemma truthy_nonempty {A} (l : list A) : truthy l = true <-> l <> [].
Proof. destruct l; simpl; split; congruence. Qed.

Lemma str_join_nonempty (sep : pystr) (x : pystr) (rest : list pystr) :
  x <> [] -> str_join sep (x :: rest) <> [].
Proof.
  intros Hx. destruct rest; simpl; [exact Hx|].
  destruct x; [congruence | discriminate].
Qed.

Lemma format_keywords_nonempty (kws : list pystr) :
  keywords_ok kws -> format_keywords kws <> [].
Proof.
  intros [_ Hall]. unfold format_keywords.
  destruct kws as [|k kws]; simpl truthy; cbv iota; [discriminate|].
  apply str_join_nonempty. inversion Hall as [|? ? [Hk _] _]. exact Hk.
Qed.

Lemma keywords_ok_add (kws : list pystr) (input : pystr) :
  keywords_ok kws ->
  truthy (strip input) = true ->
  str_in (strip input) kws = false ->
  keywords_ok (kws ++ [strip input]).
Proof.
  intros [Hnodup Hall] Hne Hnew. split.
  - apply NoDup_app; [exact Hnodup | repeat constructor; auto |].
    intros x Hx [<-|[]].
    apply str_in_In in Hx. congruence.
  - apply Forall_app. split; [exact Hall|].
    constructor; [|constructor].
    split; [apply truthy_nonempty, Hne | apply strip_idempotent].
Qed.

Lemma generate_posts_thrice_at_most (E : env) (messages : list message)
    (model : pystr) (temperature : float) (max_tokens : Z) (tr : trace) :
  exists v added,
    query_chat_api E messages model default_max_retries temperature
      max_tokens tr = (Val v, tr ++ added) /\
    (List.length (posts added) <= 3)%nat.
Proof.
  destruct (query_chat_api_at_shape E messages model default_max_retries
              temperature max_tokens tr)
    as (site & v & added & n & Hrun & Hposts & Hn & _).
  exists v, added.
  split; [exact (query_chat_api_value _ _ _ _ _ _ _ _ _ _ Hrun)|].
  rewrite Hposts, repeat_length. exact Hn.
Qed.

Section Blocks.

Variable E : env.
Variable w : widgets.

(** The part goes on, or ends the run, without an event; what is left
    to show is about the state. *)
Ltac stays :=
  eexists false, _, []; rewrite app_nil_r;
  split; [reflexivity|];
  split; [|split; [intros _; split; [|reflexivity] | simpl; lia]].

Ltac reruns :=
  eexists true, _, []; rewrite app_nil_r;
  split; [reflexivity|];
  split; [|split; [discriminate | simpl; lia]].

Lemma then_block_spec (P Q R : session_state -> Prop) (b1 b2 : block) :
  block_spec P Q b1 -> block_spec Q R b2 -> block_spec P R (then_block b1 b2).
Proof.
  intros H1 H2 st tr HP.
  destruct (H1 st tr HP) as (flag & st1 & added1 & Hrun1 & Hok1 & Hq & Hn1).
  unfold then_block. run_py. rewrite Hrun1. cbn [fst snd].
  destruct flag.
  - exists true, st1, added1.
    split; [reflexivity|]. split; [assumption|].
    split; [discriminate | assumption].
  - destruct (Hq eq_refl) as [HQ Hnone].
    destruct (H2 st1 (tr ++ added1) HQ)
      as (flag & st2 & added2 & Hrun2 & Hok2 & Hr & Hn2).
    exists flag, st2, (added1 ++ added2).
    cbv iota. rewrite Hrun2, <- app_assoc.
    rewrite posts_app, Hnone. simpl app.
    split; [reflexivity|]. split; [assumption|].
    split; [exact Hr | exact Hn2].
Qed.

Lemma clear_cache_block_spec :
  block_spec session_ok session_ok (clear_cache_block w).
Proof.
  intros st tr Hok. unfold clear_cache_block, rerun, carry_on. run_py.
  destruct (w_clear_cache_btn w); [|stays; exact Hok].
  reruns. split; simpl; [apply Hok | discriminate].
Qed.

Lemma clear_titles_block_spec :
  block_spec session_ok session_ok (clear_titles_block w).
Proof.
  intros st tr Hok. unfold clear_titles_block, rerun, carry_on. run_py.
  destruct (w_clear_titles_btn w); [|stays; exact Hok].
  destruct (ss_title_results st); [|stays; exact Hok].
  reruns. exact Hok.
Qed.

Lemma generate_titles_block_spec :
  block_spec session_ok session_ok (generate_titles_block E w).
Proof.
  intros st tr Hok. unfold generate_titles_block, rerun, carry_on.
  destruct (w_generate_titles_btn w); [|run_py; stays; exact Hok].
  destruct (truthy (strip (w_topic_name w))).
  - destruct (generate_posts_thrice_at_most E
                (titles_messages (strip (w_topic_name w)))
                (w_selected_model w) 0.8%float 400 tr)
      as (v & added & Hrun & Hn).
    unfold generate_titles. run_py. rewrite Hrun.
    eexists true, _, added. split; [reflexivity|].
    split; [exact Hok|]. split; [discriminate | exact Hn].
  - run_py. eexists false, st, [_]. split; [reflexivity|].
    split; [exact Hok|]. split; [intros _; split; [exact Hok | reflexivity]|].
    simpl. lia.
Qed.

Lemma init_keywords_block_spec :
  block_spec session_ok session_ready init_keywords_block.
Proof.
  intros st tr Hok. unfold init_keywords_block, carry_on. run_py.
  destruct (ss_keywords st) as [kws|] eqn:Hkws.
  - stays; [exact Hok|]. split; [exact Hok | congruence].
  - assert (Hnew : session_ok {| ss_title_results := ss_title_results st;
                                 ss_blog_results := ss_blog_results st;
                                 ss_keywords := Some [] |}).
    { split; simpl; [|apply Hok].
      intros kws H. injection H as <-. split; constructor. }
    stays; [exact Hnew|]. split; [exact Hnew | discriminate].
Qed.

Lemma add_keyword_block_spec :
  block_spec session_ready session_ready (add_keyword_block E w).
Proof.
  intros st tr Hst.
  unfold add_keyword_block, session_keywords, rerun, carry_on.
  destruct (w_add_keyword_btn w); [|run_py; stays; [apply Hst | exact Hst]].
  destruct (truthy (strip (w_keyword_input w))) eqn:Hne;
    [|run_py; stays; [apply Hst | exact Hst]].
  destruct (ss_keywords st) as [kws|] eqn:Hkws; [|destruct Hst; congruence].
  run_py.
  destruct (str_in (strip (w_keyword_input w)) kws) eqn:Hin; simpl negb;
    cbv iota.
  - stays; [apply Hst | exact Hst].
  - assert (Hnew : keywords_ok (kws ++ [strip (w_keyword_input w)])).
    { apply keywords_ok_add; auto. apply Hst. exact Hkws. }
    reruns. split; simpl; [|apply Hst].
    intros kws' H. injection H as <-. exact Hnew.
Qed.

Lemma clear_keywords_block_spec :
  block_spec session_ready session_ready (clear_keywords_block E w).
Proof.
  intros st tr Hst.
  unfold clear_keywords_block, session_keywords, rerun, carry_on.
  destruct (ss_keywords st) as [kws|] eqn:Hkws; [|destruct Hst; congruence].
  run_py.
  destruct (truthy kws); [|stays; [apply Hst | exact Hst]].
  destruct (w_clear_keywords_btn w); [|stays; [apply Hst | exact Hst]].
  reruns. split; simpl; [|apply Hst].
  intros kws' H. injection H as <-. split; constructor.
Qed.

Lemma clear_blog_block_spec :
  block_spec session_ready session_ready (clear_blog_block w).
Proof.
  intros st tr Hst.
  unfold clear_blog_block, rerun, carry_on. run_py.
  destruct (w_clear_blog_btn w); [|stays; [apply Hst | exact Hst]].
  destruct (ss_blog_results st); [|stays; [apply Hst | exact Hst]].
  reruns. split; simpl; [apply Hst | discriminate].
Qed.

Lemma generate_blog_block_spec :
  block_spec session_ready session_ready (generate_blog_block E w).
Proof.
  intros st tr Hst.
  unfold generate_blog_block, session_keywords, rerun, carry_on.
  destruct (w_generate_blog_btn w);
    [|run_py; stays; [apply Hst | exact Hst]].
  destruct (truthy (strip (w_title_of_the_blog w))) eqn:Hne.
  - destruct Hst as [[Hk Hb] Hsome].
    destruct (ss_keywords st) as [kws|] eqn:Hkws; [|congruence].
    destruct (generate_posts_thrice_at_most E
                (blog_messages (strip (w_title_of_the_blog w))
                   (format_keywords kws) (w_num_of_words w))
                (w_selected_model w) 0.7%float
                (Z.min (w_num_of_words w * 2) 2000) tr)
      as (v & added & Hrun & Hn).
    unfold generate_blog_content. run_py. rewrite Hrun.
    eexists true, _, added. split; [reflexivity|].
    split; [|split; [discriminate | exact Hn]].
    split; cbn [ss_keywords ss_blog_results]; [exact Hk|].
    intros b H. injection H as <-. cbn [br_title br_keywords].
    split; [apply truthy_nonempty, Hne|].
    split; [apply strip_idempotent|].
    apply format_keywords_nonempty, Hk. reflexivity.
  - run_py. eexists false, st, [_]. split; [reflexivity|].
    split; [apply Hst|]. split; [intros _; split; [exact Hst | reflexivity]|].
    simpl. lia.
Qed.

Lemma script_run_spec : block_spec session_ok session_ready (script_run E w).
Proof.
  unfold script_run.
  apply then_block_spec with (Q := session_ok);
    [apply clear_cache_block_spec|].
  apply then_block_spec with (Q := session_ok);
    [apply clear_titles_block_spec|].
  apply then_block_spec with (Q := session_ok);
    [apply generate_titles_block_spec|].
  apply then_block_spec with (Q := session_ready);
    [apply init_keywords_block_spec|].
  apply then_block_spec with (Q := session_ready);
    [apply add_keyword_block_spec|].
  apply then_block_spec with (Q := session_ready);
    [apply clear_keywords_block_spec|].
  apply then_block_spec with (Q := session_ready);
    [apply clear_blog_block_spec|].
  apply generate_blog_block_spec.
Qed.

End Blocks.



(** X14.  Whatever the user does and whatever the service answers,
    every state a session reaches from the empty one satisfies
    [session_ok], and no run of the script raises. *)
Theorem every_session_state_is_ok (E : env) (ws : list widgets) (tr : trace) :
  exists st' tr',
    script_runs E ws new_session tr = (Val st', tr') /\
    session_ok st'.
Proof.
  assert (Hgen : forall st tr0, session_ok st ->
            exists st' tr', script_runs E ws st tr0 = (Val st', tr') /\
                            session_ok st').
  { induction ws as [|w ws IH]; intros st tr0 Hok.
    - exists st, tr0. split; [reflexivity | exact Hok].
    - destruct (script_run_spec E w st tr0 Hok)
        as (flag & st1 & added & Hrun & Hok1 & _).
      destruct (IH st1 (tr0 ++ added) Hok1) as (st' & tr' & Hrest & Hok').
      exists st', tr'. split; [|exact Hok'].
      simpl. run_py. rewrite Hrun. exact Hrest. }
  apply Hgen. split; simpl; discriminate.
Qed.

(** X15.  A run of the script in which neither generate button is
    pressed with a field that is not blank sends no POST and sleeps
    never, and stores no result: each of the two results is as before
    or removed. *)
Theorem no_request_without_a_filled_field (E : env) (w : widgets)
    (st : session_state) (tr : trace) :
  w_generate_titles_btn w = false \/ strip (w_topic_name w) = [] ->
  w_generate_blog_btn w = false \/ strip (w_title_of_the_blog w) = [] ->
  exists flag st' added,
    script_run E w st tr = (Val (flag, st'), tr ++ added) /\
    posts added = [] /\
    sleeps added = [] /\
    (ss_title_results st' = ss_title_results st \/
     ss_title_results st' = None) /\
    (ss_blog_results st' = ss_blog_results st \/
     ss_blog_results st' = None).
Proof.
  intros Htitles Hblog.
  assert (Ht : (if w_generate_titles_btn w
                then truthy (strip (w_topic_name w)) else false) = false).
  { destruct Htitles as [->| ->]; [reflexivity|].
    destruct (w_generate_titles_btn w); reflexivity. }
  assert (Hb : (if w_generate_blog_btn w
                then truthy (strip (w_title_of_the_blog w)) else false) = false).
  { destruct Hblog as [->| ->]; [reflexivity|].
    destruct (w_generate_blog_btn w); reflexivity. }
  unfold script_run, then_block, clear_cache_block, clear_titles_block,
    generate_titles_block, init_keywords_block, add_keyword_block,
    clear_keywords_block, clear_blog_block, generate_blog_block,
    session_keywords, rerun, carry_on.
  destruct (w_generate_titles_btn w), (w_generate_blog_btn w);
    try rewrite Ht; try rewrite Hb;
    run_py; cbn [ss_keywords ss_title_results ss_blog_results fst snd];
    repeat (split_match; run_py;
            cbn [ss_keywords ss_title_results ss_blog_results fst snd]);
    try congruence;
    lazymatch goal with
    | |- exists flag st' added, (Val (?f, ?s), ?t) = _ /\ _ =>
        lazymatch t with
        | tr => exists f, s, []; rewrite app_nil_r
        | tr ++ ?a => exists f, s, a
        | (tr ++ ?a) ++ ?b => exists f, s, (a ++ b); rewrite <- app_assoc
        end
    end;
    (split; [reflexivity|]); simpl; auto.
Qed.

Lemma no_request_without_a_filled_field_witness :
  exists flag st' added,
    script_run (sample_env (always (completion (lit "unused"))))
      blank_topic_widgets new_session []
      = (Val (flag, st'), [] ++ added) /\
    posts added = [].
Proof.
  destruct (no_request_without_a_filled_field
              (sample_env (always (completion (lit "unused"))))
              blank_topic_widgets new_session [])
    as (flag & st' & added & Hrun & Hposts & _).
  - right. reflexivity.
  - left. reflexivity.
  - exists flag, st', added. split; [exact Hrun | exact Hposts].
Defined.

Example blank_topic_only_warns :
  script_run (sample_env (always (completion (lit "unused"))))
    blank_topic_widgets new_session []
  = (Val (false, {| ss_title_results := None;
                    ss_blog_results := None;
                    ss_keywords := Some [] |}),
     [EvWarning ([9888; 65039]%N ++ lit " Please enter a topic first.")]).
Proof. reflexivity. Qed.

(** ** Downloads, word count, model name *)

Lemma In_firstn {A} (x : A) (n : nat) (l : list A) :
  In x (firstn n l) -> In x l.
Proof.
  revert l. induction n as [|n IH]; intros [|y l]; simpl; try tauto.
  intros [H|H]; auto.
Qed.

Lemma replace_char_gone (old new : N) (s : pystr) :
  old <> new -> ~ In old (replace_char old new s).
Proof.
  intros Hneq Hin. unfold replace_char in Hin.
  apply in_map_iff in Hin. destruct Hin as (c & Hc & _).
  destruct (N.eqb_spec c old); congruence.
Qed.

Lemma replace_char_absent (old new : N) (s : pystr) :
  ~ In old s -> replace_char old new s = s.
Proof.
  induction s as [|c s IH]; simpl; [reflexivity|].
  intros H. destruct (N.eqb_spec c old) as [->|_]; [tauto|].
  rewrite IH by tauto. reflexivity.
Qed.

(** X16.  The names of the two downloads hold no space, are at most 54
    and 53 characters long, have a stem that is not empty when the
    title is not, and are the title followed by the extension when the
    title has at most 50 characters and no space. *)
Theorem download_names (b : blog_results_t) :
  (List.length (txt_file_name b) <= 54)%nat /\
  (List.length (md_file_name b) <= 53)%nat /\
  ~ In 32%N (txt_file_name b) /\
  ~ In 32%N (md_file_name b) /\
  (br_title b <> [] -> download_stem (br_title b) <> []) /\
  ((List.length (br_title b) <= 50)%nat -> ~ In 32%N (br_title b) ->
   txt_file_name b = br_title b ++ lit ".txt" /\
   md_file_name b = br_title b ++ lit ".md").
Proof.
  unfold txt_file_name, md_file_name, download_stem.
  pose proof (firstn_le_length 50 (replace_char 32 95 (br_title b))) as Hlen.
  assert (Hstem : ~ In 32%N (firstn 50 (replace_char 32 95 (br_title b)))).
  { intros H. apply In_firstn in H.
    revert H. apply replace_char_gone. discriminate. }
  repeat split.
  - rewrite length_app. change (List.length (lit ".txt")) with 4%nat. lia.
  - rewrite length_app. change (List.length (lit ".md")) with 3%nat. lia.
  - intros H. apply in_app_or in H. destruct H as [H|H]; [tauto|].
    simpl in H. intuition discriminate.
  - intros H. apply in_app_or in H. destruct H as [H|H]; [tauto|].
    simpl in H. intuition discriminate.
  - destruct (br_title b); [congruence | discriminate].
  - rewrite replace_char_absent, firstn_all2 by assumption. reflexivity.
  - rewrite replace_char_absent, firstn_all2 by assumption. reflexivity.
Qed.

Example download_name_example :
  txt_file_name {| br_title := lit "Intro to AI"; br_content := [];
                   br_keywords := [] |} = lit "Intro_to_AI.txt".
Proof. reflexivity. Qed.

Section Words.






End Words.

Example word_count_example :
  word_count {| br_title := []; br_keywords := [];
                br_content := lit "  Two" ++ [10; 9]%N ++ lit "words " |} = 2.
Proof. reflexivity. Qed.

Lemma split_on_nonempty (sep : N) (s : pystr) : split_on sep s <> [].
Proof.
  destruct s as [|c s]; simpl; [discriminate|].
  destruct (N.eqb c sep); [discriminate|].
  destruct (split_on sep s); discriminate.
Qed.

Lemma split_on_parts (sep : N) (s : pystr) :
  Forall (fun part => ~ In sep part) (split_on sep s).
Proof.
  induction s as [|c s IH]; simpl.
  - constructor; [tauto | constructor].
  - destruct (N.eqb_spec c sep) as [->|Hneq].
    + constructor; [tauto | exact IH].
    + destruct (split_on sep s) as [|x xs]; [repeat constructor; simpl; tauto|].
      inversion IH as [|? ? Hx Hxs]. subst.
      constructor; [|exact Hxs]. simpl. intros [H|H]; [congruence | tauto].
Qed.

Lemma split_on_last (sep : N) (s : pystr) :
  exists pre,
    s = pre ++ last (split_on sep s) [] /\
    (List.length (split_on sep s) = 1%nat -> pre = []) /\
    (List.length (split_on sep s) <> 1%nat -> exists p, pre = p ++ [sep]).
Proof.
  induction s as [|c s (pre & Hs & Hone & Hmore)].
  - exists []. simpl. repeat split; auto. congruence.
  - pose proof (split_on_nonempty sep s) as Hne.
    cbn [split_on]. destruct (N.eqb_spec c sep) as [->|Hneq];
      destruct (split_on sep s) as [|x xs]; try congruence.
    + exists (sep :: pre).
      change (last ([] :: x :: xs) []) with (last (x :: xs) []).
      split; [|split].
      * rewrite Hs at 1. reflexivity.
      * simpl. discriminate.
      * intros _. destruct xs as [|y ys].
        -- exists []. rewrite Hone by reflexivity. reflexivity.
        -- destruct Hmore as [p ->]; [simpl; discriminate|].
           exists (sep :: p). reflexivity.
    + destruct xs as [|y ys].
      * exists []. rewrite (Hone eq_refl) in Hs. simpl in Hs. subst s.
        simpl. repeat split; auto. congruence.
      * destruct Hmore as [p ->]; [simpl; discriminate|].
        exists (c :: p ++ [sep]).
        change (last ((c :: x) :: y :: ys) []) with (last (x :: y :: ys) []).
        split; [|split].
        -- rewrite Hs at 1. reflexivity.
        -- simpl. discriminate.
        -- intros _. exists (c :: p). reflexivity.
Qed.

Lemma last_in {A} (l : list A) (d : A) : l <> [] -> In (last l d) l.
Proof.
  induction l as [|x l IH]; [congruence|]. intros _.
  destruct l as [|y l]; [left; reflexivity|].
  right. apply IH. discriminate.
Qed.

(** X18.  The model name shown in the sidebar is the part of the
    identifier after its last [/]: it holds no [/], the identifier is
    that name after a prefix that is empty or ends with [/], and an
    identifier without [/] is shown whole. *)
Theorem short_name_is_last_segment (selected_model : pystr) :
  ~ In 47%N (model_short_name selected_model) /\
  (exists pre,
     selected_model = pre ++ model_short_name selected_model /\
     (pre = [] \/ exists p, pre = p ++ [47%N])) /\
  (~ In 47%N selected_model -> model_short_name selected_model = selected_model).
Proof.
  unfold model_short_name.
  pose proof (split_on_parts 47 selected_model) as Hparts.
  pose proof (last_in _ [] (split_on_nonempty 47 selected_model)) as Hin.
  rewrite Forall_forall in Hparts. specialize (Hparts _ Hin).
  destruct (split_on_last 47 selected_model) as (pre & Hs & Hone & Hmore).
  assert (Hpre : pre = [] \/ exists p, pre = p ++ [47%N]).
  { destruct (Nat.eq_dec (List.length (split_on 47 selected_model)) 1);
      [left | right]; auto. }
  split; [exact Hparts|]. split; [exists pre; auto|].
  intros Hno. destruct Hpre as [->|[p ->]]; [symmetry; exact Hs|].
  exfalso. apply Hno. rewrite Hs. apply in_or_app. left.
  apply in_or_app. right. left. reflexivity.
Qed.

Example sidebar_names :
  map model_short_name MODEL_OPTIONS =
  [ lit "KAT-Dev:novita"; lit "Mixtral-8x7B-Instruct-v0.1";
    lit "Llama-2-70b-chat-hf"; lit "Nous-Hermes-2-Mixtral-8x7B-DPO";
    lit "openchat-3.5-1210" ].
Proof. reflexivity. Qed.

(** X19.  For a word count the slider can give (100 to 1000), every
    POST of [generate_blog_content] asks for exactly twice as many
    tokens as words, between 200 and 2000: the cap of 2000 never cuts
    the request short. *)
Theorem slider_never_hits_the_cap (E : env) (title keywords : pystr)
    (blog_length : Z) (model : pystr) (tr : trace) :
  100 <= blog_length <= 1000 ->
  exists v added n,
    generate_blog_content E title keywords blog_length model tr
      = (Val v, tr ++ added) /\
    (1 <= n)%nat /\
    map p_max_tokens (posted added) = repeat (2 * blog_length) n /\
    200 <= 2 * blog_length <= 2000.
Proof.
  intros Hrange. unfold generate_blog_content.
  destruct (query_chat_api_at_shape E
              (blog_messages title keywords blog_length) model
              default_max_retries 0.7%float (Z.min (blog_length * 2) 2000) tr)
    as (site & v & added & n & Hrun & Hposts & _ & Hone & _).
  apply posted_repeat in Hposts.
  exists v, added, n.
  split; [exact (query_chat_api_value _ _ _ _ _ _ _ _ _ _ Hrun)|].
  split; [apply Hone; unfold default_max_retries; lia|].
  split; [|lia].
  rewrite Hposts, map_repeat. unfold build_payload. cbn [p_max_tokens].
  f_equal. lia.
Qed.

Lemma slider_never_hits_the_cap_witness :
  exists v added n,
    generate_blog_content (sample_env (always (completion (lit "A post."))))
      (lit "T") (lit "k") 1000 (lit "m") []
      = (Val v, [] ++ added) /\
    (1 <= n)%nat /\
    map p_max_tokens (posted added) = repeat 2000 n.
Proof.
  destruct (slider_never_hits_the_cap
              (sample_env (always (completion (lit "A post."))))
              (lit "T") (lit "k") 1000 (lit "m") [])
    as (v & added & n & Hrun & Hn & Htokens & _); [lia|].
  exists v, added, n. split; [exact Hrun|]. split; [exact Hn | exact Htokens].
Defined.


